(** * AD2_ELEX_with_demo.py: the sweep-and-measure script over the vendor driver

    A shallow embedding of [src/AD2_ELEX_with_demo.py].

    - The arithmetic of the interpreter is the class [PyNum]; its instance
      [binary64] is the IEEE double Python floats are (Corelib's [SpecFloat],
      no primitive floats).  Every function of the file is written once, over
      the class; a literal is the rational it denotes, rounded by [of_Q].
    - The vendor library [dwf], the module [device] and the functions of the
      module [time] are the environment: each call is logged in the [trace]
      of the [world], and what the outside hands back (handle, sampled
      voltages, status bytes, clock readings, the exception [time.sleep]
      answers a duration with) comes from the oracles of [environment].
    - Exceptions are the constructor [Raise] of [outcome]; the one unbounded
      loop ([while True] of [record_oscilloscope]) takes fuel and answers
      [Timeout] when it runs out.
    - Names the top level of the file binds ([dwf], [ctypes], [constants],
      [device], the functions) are taken as the file binds them.  Names the
      file reads without binding them are looked up in [globals] each time
      they are read: [data] in [open_AD2] and [record_oscilloscope], [time]
      in [main].
    - [main] is embedded from its first statement to the end of its loops
      (lines 270-359).  What follows (lines 361-408) goes through matplotlib
      and numpy, which the file does not import either, and is not embedded,
      apart from the comprehension of line 407 ([rows]). *)

From Stdlib Require Import ZArith QArith Lia Floats.SpecFloat.
From stdpp Require Import base list strings gmap.

Local Open Scope Z_scope.

(** The exceptions the script can meet. *)
Inductive exn :=
  | NameError (name : string)
  | AttributeError (attr : string)
  | IndexError
  | TypeError
  | ValueError
  | ZeroDivisionError
  | OverflowError.

(** ** Numbers *)

Class PyNum (V : Type) := {
  of_Q : Q -> V;                          (* a numeric literal *)
  add : V -> V -> V;                      (* x + y *)
  sub : V -> V -> V;                      (* x - y *)
  truediv : V -> V -> exn + V;            (* x / y *)
  int_of : V -> exn + Z;                  (* int(x) *)
  cmp : V -> V -> option comparison       (* None: unordered (nan) *)
}.

Definition of_int `{PyNum V} (z : Z) : V := of_Q (inject_Z z).

(** [x < y] and [x > y] as Python evaluates them. *)
Definition lt `{PyNum V} (x y : V) : bool :=
  match cmp x y with Some Lt => true | _ => false end.
Definition gt `{PyNum V} (x y : V) : bool :=
  match cmp x y with Some Gt => true | _ => false end.
Definition le `{PyNum V} (x y : V) : bool :=
  match cmp x y with Some Lt | Some Eq => true | _ => false end.
Definition eqv `{PyNum V} (x y : V) : bool :=
  match cmp x y with Some Eq => true | _ => false end.

(** The builtins [min(a, b)] and [max(a, b)]: the first argument is kept
    unless the second is strictly smaller (greater). *)
Definition py_min `{PyNum V} (a b : V) : V := if lt b a then b else a.
Definition py_max `{PyNum V} (a b : V) : V := if gt b a then b else a.

(** IEEE 754 binary64. *)
Module B64.
Definition prec : Z := 53.
Definition emax : Z := 1024.
Definition t := spec_float.

Definition of_Z (z : Z) : t := binary_normalize prec emax z 0 false.

(** Correctly rounded quotient of two integers. *)
Definition of_Q (q : Q) : t :=
  SFdiv prec emax (of_Z (Qnum q)) (of_Z (Zpos (Qden q))).

Definition truediv (x y : t) : exn + t :=
  match y with
  | S754_zero _ => inl ZeroDivisionError
  | _ => inr (SFdiv prec emax x y)
  end.

(** Truncation toward zero. *)
Definition int_of (x : t) : exn + Z :=
  match x with
  | S754_zero _ => inr 0
  | S754_finite s m e => inr (cond_Zopp s (Z.shiftl (Zpos m) e))
  | S754_infinity _ => inl OverflowError
  | S754_nan => inl ValueError
  end.
End B64.

#[export] Instance binary64 : PyNum B64.t := {|
  of_Q := B64.of_Q;
  add := SFadd B64.prec B64.emax;
  sub := SFsub B64.prec B64.emax;
  truediv := B64.truediv;
  int_of := B64.int_of;
  cmp := SFcompare
|}.

(** ** ctypes *)

Definition INT_MAX : Z := 2147483647.

(** [ctypes.c_int(z)] keeps the low 32 bits, read as a signed number. *)
Definition wrap_int (z : Z) : Z := (z + 2^31) mod 2^32 - 2^31.
Arguments wrap_int : simpl never.

(** [class function] (lines 130-142). *)
Inductive function :=
  | custom | sine | square | triangle | noise | dc | pulse
  | trapezium | sine_power | ramp_up | ramp_down.

#[export] Instance function_eq_dec : EqDecision function.
Proof. solve_decision. Defined.

(** The [dwfconstants] value each member of [class function] is bound to. *)
Definition function_constant (f : function) : string :=
  match f with
  | custom => "funcCustom" | sine => "funcSine" | square => "funcSquare"
  | triangle => "funcTriangle" | noise => "funcNoise" | dc => "funcDC"
  | pulse => "funcPulse" | trapezium => "funcTrapezium"
  | sine_power => "funcSinePower" | ramp_up => "funcRampUp"
  | ramp_down => "funcRampDown"
  end.

(** The two functions of the module [time] that the script calls. *)
Inductive builtin := builtin_sleep | builtin_time.

Section Script.
Context {V : Type} `{PyNum V}.

(** An argument of a driver call. *)
Inductive carg :=
  | CInt (z : Z)                 (* ctypes.c_int *)
  | CBool (b : bool)             (* ctypes.c_bool *)
  | CDouble (v : V)              (* ctypes.c_double *)
  | CArray (l : list V)          (* (ctypes.c_double * n)() and its cells *)
  | Const (name : string)        (* a value of dwfconstants *)
  | OutInt (z : Z)               (* byref(c_int), with what the driver stored *)
  | OutByte (z : Z)              (* byref(c_byte), with what the driver stored *)
  | OutDouble (v : V).           (* byref(c_double), with what the driver stored *)

Definition c_int (z : Z) : carg := CInt (wrap_int z).
Definition c_bool (b : bool) : carg := CBool b.
Definition c_double (v : V) : carg := CDouble v.

Inductive event :=
  | Dwf (fn : string) (args : list carg)     (* dwf.fn(args) *)
  | DeviceOpen (handle : Z)                  (* device.open() *)
  | TimeTime (t : V)                         (* time.time(), with its value *)
  | TimeSleep (d : V)                        (* time.sleep(d) *)
  | PrintStarting                            (* print("starting") *)
  | PrintCycle (j : Z) (elapsed : V).        (* print(f"Cycle #{j} Time:{elapsed}") *)

(** A Python object, as far as the script looks into one: the value of an
    attribute, and what a global name can be bound to. *)
Inductive attr :=
  | AInt (z : Z)                 (* an int *)
  | AFloat (v : V)               (* a float *)
  | AHandle (h : Z)              (* a ctypes.c_int holding a device handle *)
  | ABuiltin (b : builtin).      (* a built-in function *)

(** [PyObject] is an object that carries attributes of its own (a module, a
    function, a class or an instance), with the attributes the script
    reads; strings and lists carry none of them and accept none. *)
Inductive pyval :=
  | PyStr                                                  (* a string *)
  | PyList                                                 (* a list *)
  | PyObject (kind : string) (attrs : list (string * attr)).

Record environment := {
  opened : Z;                (* handle of the first available device *)
  clock : nat -> V;          (* k-th reading of time.time() *)
  sleep_raises : V -> option exn;
                             (* what time.sleep(d) raises; None: it returns *)
  voltage : nat -> V;        (* k-th value of FDwfAnalogInStatusSample *)
  status : nat -> Z;         (* status byte of the k-th polling call *)
  acquired : nat -> V;       (* cell k of the buffer of FDwfAnalogInStatusData *)
  DwfStateDone : Z           (* constants.DwfStateDone.value *)
}.

Record world := {
  trace : list event;
  globals : gmap string pyval;
  clock_reads : nat;
  samples_read : nat;
  polls : nat
}.

Inductive outcome (A : Type) :=
  | Ok (a : A) (w : world)
  | Raise (e : exn) (w : world)
  | Timeout (w : world).
Arguments Ok {A} a w.
Arguments Raise {A} e w.
Arguments Timeout {A} w.

Definition M (A : Type) : Type := world -> outcome A.

Definition ret {A} (a : A) : M A := fun w => Ok a w.
Definition bind {A B} (m : M A) (k : A -> M B) : M B :=
  fun w => match m w with
           | Ok a w' => k a w'
           | Raise e w' => Raise e w'
           | Timeout w' => Timeout w'
           end.
Definition raise {A} (e : exn) : M A := fun w => Raise e w.

Definition lift {A} (r : exn + A) : M A :=
  fun w => match r with inl e => Raise e w | inr a => Ok a w end.

Notation "x <- m ;; k" := (bind m (fun x => k))
  (at level 100, m at next level, right associativity, only parsing).
Notation "m ;;; k" := (bind m (fun _ => k))
  (at level 100, right associativity, only parsing).

(** [for i in range(start, stop, 1)], threading the variables the body
    assigns. *)
Fixpoint for_range_from {S} (i : Z) (n : nat) (body : Z -> S -> M S) (s : S) : M S :=
  match n with
  | O => ret s
  | S k => s' <- body i s ;; for_range_from (i + 1) k body s'
  end.

Definition for_range {S} (start stop : Z) (body : Z -> S -> M S) (s : S) : M S :=
  for_range_from start (Z.to_nat (stop - start)) body s.

(** ** The environment's calls *)

Definition log (e : event) : M unit := fun w =>
  Ok tt {| trace := trace w ++ [e]; globals := globals w;
           clock_reads := clock_reads w; samples_read := samples_read w;
           polls := polls w |}.

Definition dwf (fn : string) (args : list carg) : M unit := log (Dwf fn args).

(** The clock of the environment is read. *)
Definition read_clock (env : environment) : M V := fun w =>
  let t := clock env (clock_reads w) in
  Ok t {| trace := trace w ++ [TimeTime t]; globals := globals w;
          clock_reads := S (clock_reads w); samples_read := samples_read w;
          polls := polls w |}.

(** [dwf.FDwfAnalogInStatusSample(handle, channel, byref(voltage))]. *)
Definition status_sample (env : environment) (handle : carg) (channel : carg) : M V :=
  fun w =>
  let v := voltage env (samples_read w) in
  Ok v {| trace := trace w ++ [Dwf "FDwfAnalogInStatusSample" [handle; channel; OutDouble v]];
          globals := globals w; clock_reads := clock_reads w;
          samples_read := S (samples_read w); polls := polls w |}.

(** [dwf.FDwfAnalogInStatus(handle, c_bool(True), byref(status))]. *)
Definition status_poll (env : environment) (handle : carg) : M Z := fun w =>
  let s := status env (polls w) in
  Ok s {| trace := trace w ++ [Dwf "FDwfAnalogInStatus" [handle; c_bool true; OutByte s]];
          globals := globals w; clock_reads := clock_reads w;
          samples_read := samples_read w; polls := S (polls w) |}.

(** Reading a global name, and an attribute of the object found. *)
Definition load_global (name : string) : M pyval := fun w =>
  match globals w !! name with
  | Some o => Ok o w
  | None => Raise (NameError name) w
  end.

Definition store_global (name : string) (o : pyval) : M unit := fun w =>
  Ok tt {| trace := trace w; globals := <[name := o]> (globals w);
           clock_reads := clock_reads w; samples_read := samples_read w;
           polls := polls w |}.

Fixpoint assoc (k : string) (l : list (string * attr)) : option attr :=
  match l with
  | [] => None
  | (k', a) :: l' => if decide (k = k') then Some a else assoc k l'
  end.

Definition getattr (o : pyval) (name : string) : M attr :=
  match o with
  | PyObject _ attrs =>
      match assoc name attrs with
      | Some a => ret a
      | None => raise (AttributeError name)
      end
  | PyStr | PyList => raise (AttributeError name)
  end.

(** [o.name = a].  Objects are kept by value: the object with the new
    attribute is handed back, for the caller to store under the name it read
    the object from. *)
Definition setattr (o : pyval) (name : string) (a : attr) : M pyval :=
  match o with
  | PyObject kind attrs => ret (PyObject kind ((name, a) :: attrs))
  | PyStr | PyList => raise (AttributeError name)
  end.

(** [f(d)] for the object [f] found as [time.sleep]: the built-in [sleep]
    sleeps or raises as the environment says; [time.time] takes no argument,
    and nothing else the model holds can be called. *)
Definition call_sleep (env : environment) (f : attr) (d : V) : M unit :=
  match f with
  | ABuiltin builtin_sleep =>
      match sleep_raises env d with
      | Some e => raise e
      | None => log (TimeSleep d)
      end
  | _ => raise TypeError
  end.

(** [f()] for the object [f] found as [time.time]. *)
Definition call_time (env : environment) (f : attr) : M V :=
  match f with
  | ABuiltin builtin_time => read_clock env
  | _ => raise TypeError
  end.

(** [time.sleep(d)] and [time.time()] as [main] writes them: the global
    [time] is looked up, then its attribute, then the call is made. *)
Definition time_sleep (env : environment) (d : V) : M unit :=
  time <- load_global "time" ;;
  sleep <- getattr time "sleep" ;;
  call_sleep env sleep d.

Definition time_time (env : environment) : M V :=
  time <- load_global "time" ;;
  f <- getattr time "time" ;;
  call_time env f.

(** The argument [device_data] of every function: an object with a
    [handle]. *)
Record device_data := { handle : Z }.

(** ** The functions of the file *)

(** [open_AD2()], lines 26-36.  [data] is read from the globals; the object
    found is updated in place and returned. *)
Definition open_AD2 (env : environment) : M pyval :=
  let device_handle := opened env in
  dwf "FDwfDeviceOpen" [c_int (-1); OutInt device_handle] ;;;
  data <- load_global "data" ;;
  data <- setattr data "handle" (AHandle device_handle) ;;
  store_global "data" data ;;;
  ret data.

(** [open_oscilloscope], lines 38-66.  The two assignments to [data] at its
    end are comments in the source. *)
Definition open_oscilloscope (device_data : device_data)
    (sampling_frequency : V) (buffer_size : Z) (offset amplitude_range : V) : M unit :=
  let h := CInt (handle device_data) in
  dwf "FDwfAnalogInChannelEnableSet" [h; c_int 0; c_bool true] ;;;
  dwf "FDwfAnalogInChannelOffsetSet" [h; c_int 0; c_double offset] ;;;
  dwf "FDwfAnalogInChannelRangeSet" [h; c_int 0; c_double amplitude_range] ;;;
  dwf "FDwfAnalogInBufferSizeSet" [h; c_int buffer_size] ;;;
  dwf "FDwfAnalogInFrequencySet" [h; c_double sampling_frequency] ;;;
  dwf "FDwfAnalogInChannelFilterSet" [h; c_int (-1); Const "filterDecimate"].

(** [measure_oscilloscope], lines 68-88. *)
Definition measure_oscilloscope (env : environment) (device_data : device_data)
    (channel : Z) : M V :=
  let h := CInt (handle device_data) in
  dwf "FDwfAnalogInConfigure" [h; c_bool false; c_bool false] ;;;
  dwf "FDwfAnalogInStatus" [h; c_bool false; c_int 0] ;;;
  voltage <- status_sample env h (c_int (channel - 1)) ;;
  ret voltage.

(** The [while True] of lines 102-109, at most [fuel] rounds. *)
Fixpoint poll_until_done (env : environment) (h : carg) (fuel : nat) : M unit :=
  match fuel with
  | O => fun w => Timeout w
  | S fuel' =>
      status <- status_poll env h ;;
      if decide (status = DwfStateDone env) then ret tt
      else poll_until_done env h fuel'
  end.

(** The attribute as the length of an array ([ctypes.c_double * a]): an
    int, or [TypeError]. *)
Definition as_int (a : attr) : M Z :=
  match a with
  | AInt z => ret z
  | AFloat _ | AHandle _ | ABuiltin _ => raise TypeError
  end.

(** The attribute as a divisor ([moment / a]): an int or a float, or
    [TypeError]. *)
Definition as_float (a : attr) : M V :=
  match a with
  | AInt z => ret (of_int z)
  | AFloat v => ret v
  | AHandle _ | ABuiltin _ => raise TypeError
  end.

(** [record_oscilloscope], lines 90-121.  [data] is read from the globals
    each time the source names it. *)
Definition record_oscilloscope (env : environment) (fuel : nat)
    (device_data : device_data) (channel : Z) : M (list V * list V) :=
  let h := CInt (handle device_data) in
  dwf "FDwfAnalogInConfigure" [h; c_bool false; c_bool true] ;;;
  poll_until_done env h fuel ;;;
  (* buffer = (ctypes.c_double * data.buffer_size)() *)
  data <- load_global "data" ;;
  a <- getattr data "buffer_size" ;;
  size <- as_int a ;;
  (if decide (size < 0) then raise ValueError else ret tt) ;;;
  (* the driver fills the buffer *)
  data <- load_global "data" ;;
  a <- getattr data "buffer_size" ;;
  size' <- as_int a ;;
  let buffer := map (acquired env) (seq 0 (Z.to_nat size)) in
  dwf "FDwfAnalogInStatusData" [h; c_int (channel - 1); CArray buffer; c_int size'] ;;;
  (* time = range(0, data.buffer_size) *)
  data <- load_global "data" ;;
  a <- getattr data "buffer_size" ;;
  size'' <- as_int a ;;
  (* time = [moment / data.sampling_frequency for moment in time] *)
  time <- for_range 0 size'' (fun moment time =>
            data <- load_global "data" ;;
            a <- getattr data "sampling_frequency" ;;
            f <- as_float a ;;
            t <- lift (truediv (of_int moment) f) ;;
            ret (time ++ [t])) [] ;;
  ret (buffer, time).

(** [close_oscilloscope], lines 123-128. *)
Definition close_oscilloscope (device_data : device_data) : M unit :=
  dwf "FDwfAnalogInReset" [CInt (handle device_data)].

(** The loop of lines 170-171: [buffer[index] = ctypes.c_double(data[index])]. *)
Definition fill_buffer (data : list V) (buffer : list V) : M (list V) :=
  for_range 0 (Z.of_nat (length buffer)) (fun index buffer =>
    match data !! Z.to_nat index with
    | Some x => ret (<[Z.to_nat index := x]> buffer)
    | None => raise IndexError
    end) buffer.

(** [generate_function], lines 144-197. *)
Definition generate_function (device_data : device_data) (channel : Z)
    (function : function) (offset frequency amplitude symmetry wait run_time : V)
    (repeat : Z) (data : list V) : M unit :=
  let h := CInt (handle device_data) in
  let channel := c_int (channel - 1) in
  let carrier := Const "AnalogOutNodeCarrier" in
  dwf "FDwfAnalogOutNodeEnableSet" [h; channel; carrier; c_bool true] ;;;
  dwf "FDwfAnalogOutNodeFunctionSet" [h; channel; carrier; Const (function_constant function)] ;;;
  (if decide (function = custom) then
     let data_length := Z.of_nat (length data) in
     buffer <- fill_buffer data (replicate (Z.to_nat data_length) (of_int 0)) ;;
     dwf "FDwfAnalogOutNodeDataSet" [h; channel; carrier; CArray buffer; c_int data_length]
   else ret tt) ;;;
  dwf "FDwfAnalogOutNodeFrequencySet" [h; channel; carrier; c_double frequency] ;;;
  dwf "FDwfAnalogOutNodeAmplitudeSet" [h; channel; carrier; c_double amplitude] ;;;
  dwf "FDwfAnalogOutNodeOffsetSet" [h; channel; carrier; c_double offset] ;;;
  dwf "FDwfAnalogOutNodeSymmetrySet" [h; channel; carrier; c_double symmetry] ;;;
  dwf "FDwfAnalogOutRunSet" [h; channel; c_double run_time] ;;;
  dwf "FDwfAnalogOutWaitSet" [h; channel; c_double wait] ;;;
  dwf "FDwfAnalogOutRepeatSet" [h; channel; c_int repeat] ;;;
  dwf "FDwfAnalogOutConfigure" [h; channel; c_bool true].

(** [close_function], lines 199-205. *)
Definition close_function (device_data : device_data) (channel : Z) : M unit :=
  dwf "FDwfAnalogOutReset" [CInt (handle device_data); c_int (channel - 1)].

(** [_switch_variable_], first definition, lines 207-233. *)
Definition _switch_variable__207 (device_data : device_data)
    (master_state positive_state negative_state : bool)
    (positive_voltage negative_voltage : V) : M unit :=
  let h := CInt (handle device_data) in
  let positive_voltage := py_max (of_int 0) (py_min (of_int 5) positive_voltage) in
  dwf "FDwfAnalogIOChannelNodeSet" [h; c_int 0; c_int 1; c_double positive_voltage] ;;;
  let negative_voltage := py_max (of_int (-5)) (py_min (of_int 0) negative_voltage) in
  dwf "FDwfAnalogIOChannelNodeSet" [h; c_int 1; c_int 1; c_double negative_voltage] ;;;
  dwf "FDwfAnalogIOChannelNodeSet" [h; c_int 0; c_int 0; c_int (Z.b2z positive_state)] ;;;
  dwf "FDwfAnalogIOChannelNodeSet" [h; c_int 1; c_int 0; c_int (Z.b2z negative_state)] ;;;
  dwf "FDwfAnalogIOEnableSet" [h; c_int (Z.b2z master_state)].

(** [_switch_variable_], second definition, lines 235-261: the one the name
    is bound to when [main] runs. *)
Definition _switch_variable_ (device_data : device_data)
    (master_state positive_state negative_state : bool)
    (positive_voltage negative_voltage : V) : M unit :=
  let h := CInt (handle device_data) in
  let positive_voltage := py_max (of_int 0) (py_min (of_int 5) positive_voltage) in
  dwf "FDwfAnalogIOChannelNodeSet" [h; c_int 0; c_int 1; c_double positive_voltage] ;;;
  let negative_voltage := py_max (of_int (-5)) (py_min (of_int 0) negative_voltage) in
  dwf "FDwfAnalogIOChannelNodeSet" [h; c_int 1; c_int 1; c_double negative_voltage] ;;;
  dwf "FDwfAnalogIOChannelNodeSet" [h; c_int 0; c_int 0; c_int (Z.b2z positive_state)] ;;;
  dwf "FDwfAnalogIOChannelNodeSet" [h; c_int 1; c_int 0; c_int (Z.b2z negative_state)] ;;;
  dwf "FDwfAnalogIOEnableSet" [h; c_int (Z.b2z master_state)].

(** [close], lines 263-268. *)
Definition close (device_data : device_data) : M unit :=
  dwf "FDwfDeviceClose" [CInt (handle device_data)].

(** ** [main], lines 270-359, and the comprehension of line 407 *)

(** The constants [main] starts from (lines 275-280). *)
Record settings := {
  initial_power_up : V;          (* power_up *)
  amplitude : V;
  amplitude_slope : V;
  time_per_measurement : V;
  cycles : Z
}.

(** The variables the loops assign. *)
Record locals := {
  ramp_measurements : list V;
  opamp_measurements : list V;
  Times : list V;
  power_up : V
}.

(** [device.open()], of the module [device]. *)
Definition device_open (env : environment) : M device_data :=
  log (DeviceOpen (opened env)) ;;;
  ret {| handle := opened env |}.

(** Line 278: [int(amplitude/amplitude_slope)]. *)
Definition rmap_steps (c : settings) : exn + Z :=
  match truediv (amplitude c) (amplitude_slope c) with
  | inl e => inl e
  | inr q => int_of q
  end.

(** [generate_function(device_data, channel=1, function=function.dc,
    offset=power_up, frequency=0, amplitude=0)], the other parameters at
    their defaults. *)
Definition set_output (device_data : device_data) (power_up : V) : M unit :=
  generate_function device_data 1 dc power_up (of_int 0) (of_int 0)
    (of_int 50) (of_int 0) (of_int 0) 0 [].

(** Body of the first inner loop, lines 306-329. *)
Definition rising_step (env : environment) (c : settings)
    (device_data : device_data) (start_time : V) (l : locals) : M locals :=
  measurement <- measure_oscilloscope env device_data 1 ;;
  let ramp := ramp_measurements l ++ [measurement] in
  measurement <- measure_oscilloscope env device_data 2 ;;
  let opamp := opamp_measurements l ++ [measurement] in
  let power_up := add (power_up l) (amplitude_slope c) in
  set_output device_data power_up ;;;
  now <- time_time env ;;
  let times := Times l ++ [sub now start_time] in
  time_sleep env (time_per_measurement c) ;;;
  ret {| ramp_measurements := ramp; opamp_measurements := opamp;
         Times := times; power_up := power_up |}.

(** Body of the second inner loop, lines 333-357. *)
Definition falling_step (env : environment) (c : settings)
    (device_data : device_data) (start_time : V) (l : locals) : M locals :=
  measurement <- measure_oscilloscope env device_data 1 ;;
  let ramp := ramp_measurements l ++ [measurement] in
  measurement <- measure_oscilloscope env device_data 2 ;;
  let opamp := opamp_measurements l ++ [measurement] in
  let power_up := sub (power_up l) (amplitude_slope c) in
  set_output device_data power_up ;;;
  now <- time_time env ;;
  let times := Times l ++ [sub now start_time] in
  time_sleep env (time_per_measurement c) ;;;
  ret {| ramp_measurements := ramp; opamp_measurements := opamp;
         Times := times; power_up := power_up |}.

(** Lines 305-329 and 331-357: [for i in range(0, rmap_steps*2, 1)]. *)
Definition rising_phase (env : environment) (c : settings)
    (device_data : device_data) (start_time : V) (rmap_steps : Z) : locals -> M locals :=
  for_range 0 (rmap_steps * 2) (fun i => rising_step env c device_data start_time).

Definition falling_phase (env : environment) (c : settings)
    (device_data : device_data) (start_time : V) (rmap_steps : Z) : locals -> M locals :=
  for_range 0 (rmap_steps * 2) (fun i => falling_step env c device_data start_time).

(** One round of the outer loop, lines 304-359. *)
Definition cycle (env : environment) (c : settings)
    (device_data : device_data) (start_time : V) (rmap_steps : Z)
    (j : Z) (l : locals) : M locals :=
  l <- rising_phase env c device_data start_time rmap_steps l ;;
  l <- falling_phase env c device_data start_time rmap_steps l ;;
  now <- time_time env ;;
  log (PrintCycle (j + 1) (sub now start_time)) ;;;
  ret l.

(** Lines 303-359: [for j in range(0, cycles, 1)]. *)
Definition sweep (env : environment) (c : settings)
    (device_data : device_data) (start_time : V) (rmap_steps : Z) : locals -> M locals :=
  for_range 0 (cycles c) (cycle env c device_data start_time rmap_steps).

(** Lines 285-298: the calls before the timer starts.  [open_oscilloscope]
    is called with its defaults. *)
Definition setup (env : environment) (c : settings) : M device_data :=
  device_data <- device_open env ;;
  time_sleep env (of_Q (1 # 2)) ;;;
  open_oscilloscope device_data (of_int 20000000) 8921 (of_int 0) (of_int 50) ;;;
  _switch_variable_ device_data true true true (of_int 5) (of_int (-5)) ;;;
  time_sleep env (of_Q (1 # 2)) ;;;
  log PrintStarting ;;;
  set_output device_data (initial_power_up c) ;;;
  time_sleep env (of_Q (1 # 2)) ;;;
  ret device_data.

(** [main] from line 272 to line 359.  [Ok l w]: the loops have ended with
    the variables [l], and line 361 is next. *)
Definition main (env : environment) (c : settings) : M locals :=
  let l := {| ramp_measurements := []; opamp_measurements := []; Times := [];
              power_up := initial_power_up c |} in
  rmap_steps <- lift (rmap_steps c) ;;
  device_data <- setup env c ;;
  start_time <- time_time env ;;
  sweep env c device_data start_time rmap_steps l.

(** Line 407: [[(Times[i], ramp_measurements[i], opamp_measurements[i])
    for i in range(0, len(Times), 1)]]. *)
Definition rows (l : locals) : M (list (V * V * V)) :=
  for_range 0 (Z.of_nat (length (Times l))) (fun i data =>
    match Times l !! Z.to_nat i, ramp_measurements l !! Z.to_nat i,
          opamp_measurements l !! Z.to_nat i with
    | Some t, Some r, Some o => ret (data ++ [(t, r, o)])
    | _, _, _ => raise IndexError
    end) [].

(** The constants of the source. *)
Definition main_settings : settings := {|
  initial_power_up := of_int (-5);
  amplitude := of_int 5;
  amplitude_slope := of_Q (5 # 100);
  time_per_measurement := of_Q (1 # 1000000);
  cycles := 1
|}.

End Script.

Arguments Ok {V A} a w.
Arguments Raise {V A} e w.
Arguments Timeout {V A} w.
Arguments carg : clear implicits.
Arguments event : clear implicits.
Arguments attr : clear implicits.
Arguments pyval : clear implicits.
Arguments environment : clear implicits.
Arguments world : clear implicits.
Arguments outcome : clear implicits.
Arguments M : clear implicits.
Arguments settings : clear implicits.
Arguments locals : clear implicits.

(** ** The module [time] *)

(** The module, with the two functions the script reads from it. *)
Definition time_module (V : Type) : pyval V :=
  PyObject "module" [("sleep", ABuiltin builtin_sleep); ("time", ABuiltin builtin_time)].

(** The global [time] is bound to the module. *)
Definition imported {V} (w : world V) : Prop :=
  globals w !! "time" = Some (time_module V).

(** [time.sleep] accepts the two durations [main] sleeps for: the half
    second of lines 286, 292 and 298 and [time_per_measurement]. *)
Definition sleeps `{PyNum V} (env : environment V) (c : settings V) : Prop :=
  sleep_raises env (of_Q (1 # 2)) = None
  /\ sleep_raises env (time_per_measurement c) = None.

(** The world after [import time]. *)
Definition import_time {V} (w : world V) : world V :=
  {| trace := trace w; globals := <["time" := time_module V]> (globals w);
     clock_reads := clock_reads w; samples_read := samples_read w;
     polls := polls w |}.

(** ** The module's namespace, and runs to evaluate on *)

(** What the top level of the file binds, on Linux (lines 1-24 and every
    [def] and [class]). *)
Definition module_globals (V : Type) : gmap string (pyval V) :=
  list_to_map
    [("ctypes", PyObject "module" []); ("platform", PyStr);
     ("path", PyList); ("sep", PyStr);
     ("dwf", PyObject "CDLL" []); ("constants_path", PyStr);
     ("constants", PyObject "module" []); ("device", PyObject "module" []);
     ("open_AD2", PyObject "function" []);
     ("open_oscilloscope", PyObject "function" []);
     ("measure_oscilloscope", PyObject "function" []);
     ("record_oscilloscope", PyObject "function" []);
     ("close_oscilloscope", PyObject "function" []);
     ("function", PyObject "class" []);
     ("generate_function", PyObject "function" []);
     ("close_function", PyObject "function" []);
     ("_switch_variable_", PyObject "function" []);
     ("close", PyObject "function" []);
     ("main", PyObject "function" [])].

(** The world when the module has just been loaded. *)
Definition loaded (V : Type) : world V :=
  {| trace := []; globals := module_globals V;
     clock_reads := 0; samples_read := 0; polls := 0 |}.

(** [|x - y| <= tol], by comparisons. *)
Definition within `{PyNum V} (tol x y : V) : bool :=
  le (sub x y) tol && le (sub y x) tol.

(** The input clamped to [[lo, hi]], as a relation between the input [x] and
    the value [r] applied. *)
Definition clamped `{PyNum V} (lo hi x r : V) : Prop :=
  le lo r = true /\ le r hi = true /\
  (lt x lo = true -> r = lo) /\
  (gt x hi = true -> r = hi) /\
  (le lo x = true -> le x hi = true -> eqv r x = true).

(** A [time.sleep] for binary64 runs: it refuses a nan and a negative
    duration with [ValueError] and an infinite one with [OverflowError]. *)
Definition sleep64 (d : B64.t) : option exn :=
  match d with
  | S754_nan => Some ValueError
  | S754_infinity _ => Some OverflowError
  | S754_finite true _ _ => Some ValueError
  | _ => None
  end.

(** A bench device for binary64 runs: the clock ticks once per reading, the
    scope returns the number of the sample, acquisition is done at the
    first poll. *)
Definition bench64 : environment B64.t := {|
  opened := 1;
  clock := fun k => B64.of_Z (Z.of_nat k);
  sleep_raises := sleep64;
  voltage := fun k => B64.of_Z (Z.of_nat k);
  status := fun _ => 2;
  acquired := fun k => B64.of_Z (Z.of_nat k);
  DwfStateDone := 2
|}.

(** * Vocabulary of the properties *)

Section Vocabulary.
Context {V : Type} `{PyNum V}.

(** The world after the calls [evs], of which [c] read the clock, [s] read a
    sample and [p] polled the status. *)
Definition advance (evs : list (event V)) (c s p : nat) (w : world V) : world V :=
  {| trace := trace w ++ evs; globals := globals w;
     clock_reads := clock_reads w + c; samples_read := samples_read w + s;
     polls := polls w + p |}.

(** The driver calls of [measure_oscilloscope(device_data, channel)] that
    reads [v]. *)
Definition measure_events (d : device_data) (channel : Z) (v : V) : list (event V) :=
  [Dwf "FDwfAnalogInConfigure" [CInt (handle d); c_bool false; c_bool false];
   Dwf "FDwfAnalogInStatus" [CInt (handle d); c_bool false; c_int 0];
   Dwf "FDwfAnalogInStatusSample" [CInt (handle d); c_int (channel - 1); OutDouble v]].

(** The driver calls of [generate_function] as the loops call it, with
    offset [p]. *)
Definition output_events (d : device_data) (p : V) : list (event V) :=
  let h := CInt (handle d) in
  let carrier := Const "AnalogOutNodeCarrier" in
  [Dwf "FDwfAnalogOutNodeEnableSet" [h; c_int (1 - 1); carrier; c_bool true];
   Dwf "FDwfAnalogOutNodeFunctionSet" [h; c_int (1 - 1); carrier; Const "funcDC"];
   Dwf "FDwfAnalogOutNodeFrequencySet" [h; c_int (1 - 1); carrier; c_double (of_int 0)];
   Dwf "FDwfAnalogOutNodeAmplitudeSet" [h; c_int (1 - 1); carrier; c_double (of_int 0)];
   Dwf "FDwfAnalogOutNodeOffsetSet" [h; c_int (1 - 1); carrier; c_double p];
   Dwf "FDwfAnalogOutNodeSymmetrySet" [h; c_int (1 - 1); carrier; c_double (of_int 50)];
   Dwf "FDwfAnalogOutRunSet" [h; c_int (1 - 1); c_double (of_int 0)];
   Dwf "FDwfAnalogOutWaitSet" [h; c_int (1 - 1); c_double (of_int 0)];
   Dwf "FDwfAnalogOutRepeatSet" [h; c_int (1 - 1); c_int 0];
   Dwf "FDwfAnalogOutConfigure" [h; c_int (1 - 1); c_bool true]].

(** The variables after one iteration that moves the output to [p]. *)
Definition step_locals (env : environment V) (start_time p : V)
    (l : locals V) (w : world V) : locals V :=
  {| ramp_measurements := ramp_measurements l ++ [voltage env (samples_read w)];
     opamp_measurements := opamp_measurements l ++ [voltage env (samples_read w + 1)];
     Times := Times l ++ [sub (clock env (clock_reads w)) start_time];
     power_up := p |}.

(** The calls of one iteration, in the order they are made. *)
Definition step_events (env : environment V) (c : settings V) (d : device_data)
    (p : V) (w : world V) : list (event V) :=
  measure_events d 1 (voltage env (samples_read w))
  ++ measure_events d 2 (voltage env (samples_read w + 1))
  ++ output_events d p
  ++ [TimeTime (clock env (clock_reads w)); TimeSleep (time_per_measurement c)].

(** The variables after [n] iterations that each apply [f] to the output. *)
Definition phase_locals (env : environment V) (start_time : V) (f : V -> V)
    (n : nat) (l : locals V) (w : world V) : locals V :=
  {| ramp_measurements :=
       ramp_measurements l
       ++ map (fun k => voltage env (samples_read w + 2 * k)) (seq 0 n);
     opamp_measurements :=
       opamp_measurements l
       ++ map (fun k => voltage env (samples_read w + 2 * k + 1)) (seq 0 n);
     Times :=
       Times l
       ++ map (fun k => sub (clock env (clock_reads w + k)) start_time) (seq 0 n);
     power_up := Nat.iter n f (power_up l) |}.

(** The variables after one round of the outer loop. *)
Definition cycle_locals (env : environment V) (c : settings V) (start_time : V)
    (n : nat) (l : locals V) (w : world V) : locals V :=
  phase_locals env start_time (fun p => sub p (amplitude_slope c)) n
    (phase_locals env start_time (fun p => add p (amplitude_slope c)) n l w)
    (advance [] n (2 * n) 0 w).

Definition scope_events (d : device_data) (sampling_frequency : V)
    (buffer_size : Z) (offset amplitude_range : V) : list (event V) :=
  let h := CInt (handle d) in
  [Dwf "FDwfAnalogInChannelEnableSet" [h; c_int 0; c_bool true];
   Dwf "FDwfAnalogInChannelOffsetSet" [h; c_int 0; c_double offset];
   Dwf "FDwfAnalogInChannelRangeSet" [h; c_int 0; c_double amplitude_range];
   Dwf "FDwfAnalogInBufferSizeSet" [h; c_int buffer_size];
   Dwf "FDwfAnalogInFrequencySet" [h; c_double sampling_frequency];
   Dwf "FDwfAnalogInChannelFilterSet" [h; c_int (-1); Const "filterDecimate"]].

(** The calls of the power-supply function when it applies [vp] and [vn]:
    the two voltages, the two rail switches, the master switch. *)
Definition supply_events (d : device_data)
    (master_state positive_state negative_state : bool) (vp vn : V) : list (event V) :=
  let h := CInt (handle d) in
  [Dwf "FDwfAnalogIOChannelNodeSet" [h; c_int 0; c_int 1; c_double vp];
   Dwf "FDwfAnalogIOChannelNodeSet" [h; c_int 1; c_int 1; c_double vn];
   Dwf "FDwfAnalogIOChannelNodeSet" [h; c_int 0; c_int 0; c_int (Z.b2z positive_state)];
   Dwf "FDwfAnalogIOChannelNodeSet" [h; c_int 1; c_int 0; c_int (Z.b2z negative_state)];
   Dwf "FDwfAnalogIOEnableSet" [h; c_int (Z.b2z master_state)]].

(** The calls of lines 285-298, in the order they are made. *)
Definition setup_events (env : environment V) (c : settings V) : list (event V) :=
  let d := {| handle := opened env |} in
  [DeviceOpen (opened env); TimeSleep (of_Q (1 # 2))]
  ++ scope_events d (of_int 20000000) 8921 (of_int 0) (of_int 50)
  ++ supply_events d true true true
       (py_max (of_int 0) (py_min (of_int 5) (of_int 5)))
       (py_max (of_int (-5)) (py_min (of_int 0) (of_int (-5))))
  ++ [TimeSleep (of_Q (1 # 2)); PrintStarting]
  ++ output_events d (initial_power_up c)
  ++ [TimeSleep (of_Q (1 # 2))].

(** The variables after [k] rounds of the outer loop, [n] iterations a
    phase. *)
Fixpoint sweep_locals (env : environment V) (c : settings V) (start_time : V)
    (n k : nat) (l : locals V) (w : world V) : locals V :=
  match k with
  | O => l
  | S k' =>
      cycle_locals env c start_time n (sweep_locals env c start_time n k' l w)
        (advance [] (k' * (2 * n + 1)) (k' * (4 * n)) 0 w)
  end.

(** The variables [main] starts the loops with. *)
Definition initial_locals (c : settings V) : locals V :=
  {| ramp_measurements := []; opamp_measurements := []; Times := [];
     power_up := initial_power_up c |}.

(** The three lists have [len] entries each. *)
Definition recorded (len : nat) (l : locals V) : Prop :=
  length (Times l) = len /\ length (ramp_measurements l) = len
  /\ length (opamp_measurements l) = len.

End Vocabulary.


(** Where the first reading of the clock stands in a trace. *)
Fixpoint clock_read_position {V} (tr : list (event V)) : option nat :=
  match tr with
  | [] => None
  | TimeTime _ :: _ => Some 0%nat
  | _ :: tr' => option_map S (clock_read_position tr')
  end.

(** Where the first call on the generator ([dwf.FDwfAnalogOut...]) stands. *)
Fixpoint output_position {V} (tr : list (event V)) : option nat :=
  match tr with
  | [] => None
  | Dwf fn _ :: tr' =>
      if String.prefix "FDwfAnalogOut" fn then Some 0%nat
      else option_map S (output_position tr')
  | _ :: tr' => option_map S (output_position tr')
  end.

(** The order of the specification: the elapsed time is taken with the two
    samples, before the generator is touched. *)
Definition stamped_before_output {V} (tr : list (event V)) : Prop :=
  exists i j, clock_read_position tr = Some i /\ output_position tr = Some j
              /\ (i < j)%nat.

(** The acquisition is first reported done at the poll number [p + k]. *)
Definition done_at {V} (env : environment V) (p k : nat) : Prop :=
  status env (p + k) = DwfStateDone env
  /\ forall j, (j < k)%nat -> status env (p + j) <> DwfStateDone env.

(** A ramp of 3 steps of 1/4 from -1, in binary64. *)
Definition quarter_settings : settings B64.t := {|
  initial_power_up := of_int (-1);
  amplitude := of_Q (3 # 4);
  amplitude_slope := of_Q (1 # 4);
  time_per_measurement := of_Q (1 # 1000000);
  cycles := 1
|}.

(** The clock readings [idxs] grow along the list. *)
Definition increasing (idxs : list nat) : Prop :=
  forall a b i j, idxs !! a = Some i -> idxs !! b = Some j ->
                  (a < b)%nat -> (i < j)%nat.

(** [ts] holds, in order, the clock readings number [idxs] minus
    [start_time], each reading taken after reading [lo] and before [hi]. *)
Definition stamped {V} `{PyNum V} (env : environment V) (start_time : V)
    (lo hi : nat) (ts : list V) : Prop :=
  exists idxs,
    ts = map (fun i => sub (clock env i) start_time) idxs
    /\ increasing idxs
    /\ Forall (fun i => (lo < i < hi)%nat) idxs.

(** No entry of [ts] is greater than the next one. *)
Fixpoint nondecreasing `{PyNum V} (ts : list V) : bool :=
  match ts with
  | x :: (y :: _) as ts' => le x y && nondecreasing ts'
  | _ => true
  end.

(** How many times [main] reads the clock: at line 301, once an iteration
    and once a cycle. *)
Definition readings {V} (c : settings V) (steps : Z) : nat :=
  (1 + Z.to_nat (cycles c) * (2 * Z.to_nat (steps * 2) + 1))%nat.

(** The time elapsed at the reading [k] of the clock since its reading
    [lo], as the interpreter subtracts. *)
Definition elapsed `{PyNum V} (env : environment V) (lo k : nat) : V :=
  sub (clock env k) (clock env lo).

(** From the reading [lo] to the reading [hi] the elapsed time never
    decreases from a reading to a later one, and is never negative. *)
Definition steady `{PyNum V} (env : environment V) (lo hi : nat) : Prop :=
  forall j k, (lo < j)%nat -> (j <= k)%nat -> (k < hi)%nat ->
    le (elapsed env lo j) (elapsed env lo k) = true
    /\ le (of_int 0) (elapsed env lo j) = true.

(** [steady], decided: the readings [lo + 1], ..., [lo + n]. *)
Definition steadyb `{PyNum V} (env : environment V) (lo n : nat) : bool :=
  forallb (fun a =>
    le (of_int 0) (elapsed env lo (lo + 1 + a))
    && forallb (fun b => le (elapsed env lo (lo + 1 + a)) (elapsed env lo (lo + 1 + a + b)))
         (seq 0 (n - a)))
    (seq 0 n).

(** The bench with a clock that is set back ten ticks at its fourth
    reading. *)
Definition rewound64 : environment B64.t := {|
  opened := 1;
  clock := fun k => B64.of_Z (if (k <? 3)%nat then Z.of_nat k else Z.of_nat k - 10);
  sleep_raises := sleep64;
  voltage := fun k => B64.of_Z (Z.of_nat k);
  status := fun _ => 2;
  acquired := fun k => B64.of_Z (Z.of_nat k);
  DwfStateDone := 2
|}.

(** ** Vocabulary of the further properties *)

(** A namespace in which [data] is bound: three cells at two samples a
    second. *)
Definition configured : world B64.t :=
  {| trace := [];
     globals := <["data" := PyObject "class"
                    [("buffer_size", AInt 3);
                     ("sampling_frequency", AFloat (of_int 2))]]>
                  (module_globals B64.t);
     clock_reads := 0; samples_read := 0; polls := 0 |}.

(** The same namespace with a sampling frequency of zero. *)
Definition unclocked : world B64.t :=
  {| trace := [];
     globals := <["data" := PyObject "class"
                    [("buffer_size", AInt 3);
                     ("sampling_frequency", AFloat (of_int 0))]]>
                  (module_globals B64.t);
     clock_reads := 0; samples_read := 0; polls := 0 |}.

(** A namespace whose [data] has a [buffer_size] of zero and nothing else. *)
Definition unsized : world B64.t :=
  {| trace := [];
     globals := <["data" := PyObject "class" [("buffer_size", AInt 0)]]>
                  (module_globals B64.t);
     clock_reads := 0; samples_read := 0; polls := 0 |}.

(** A device that never reports done. *)
Definition busy64 : environment B64.t := {|
  opened := 1;
  clock := fun k => B64.of_Z (Z.of_nat k);
  sleep_raises := sleep64;
  voltage := fun k => B64.of_Z (Z.of_nat k);
  status := fun _ => 1;
  acquired := fun k => B64.of_Z (Z.of_nat k);
  DwfStateDone := 2
|}.

(** How many calls of the driver function [fn] a trace holds. *)
Fixpoint count_calls {V} (fn : string) (tr : list (event V)) : nat :=
  match tr with
  | [] => 0
  | Dwf fn' _ :: tr' =>
      if String.eqb fn fn' then S (count_calls fn tr') else count_calls fn tr'
  | _ :: tr' => count_calls fn tr'
  end.

(** The calls of [generate_function], for any function kind. *)
Definition generate_events {V} `{PyNum V} (d : device_data) (channel : Z)
    (function : function) (offset frequency amplitude symmetry wait run_time : V)
    (repeat : Z) (data : list V) : list (event V) :=
  let h := CInt (handle d) in
  let ch := c_int (channel - 1) in
  let carrier := Const "AnalogOutNodeCarrier" in
  [Dwf "FDwfAnalogOutNodeEnableSet" [h; ch; carrier; c_bool true];
   Dwf "FDwfAnalogOutNodeFunctionSet" [h; ch; carrier; Const (function_constant function)]]
  ++ (if decide (function = custom)
      then [Dwf "FDwfAnalogOutNodeDataSet"
              [h; ch; carrier; CArray data; c_int (Z.of_nat (length data))]]
      else [])
  ++ [Dwf "FDwfAnalogOutNodeFrequencySet" [h; ch; carrier; c_double frequency];
      Dwf "FDwfAnalogOutNodeAmplitudeSet" [h; ch; carrier; c_double amplitude];
      Dwf "FDwfAnalogOutNodeOffsetSet" [h; ch; carrier; c_double offset];
      Dwf "FDwfAnalogOutNodeSymmetrySet" [h; ch; carrier; c_double symmetry];
      Dwf "FDwfAnalogOutRunSet" [h; ch; c_double run_time];
      Dwf "FDwfAnalogOutWaitSet" [h; ch; c_double wait];
      Dwf "FDwfAnalogOutRepeatSet" [h; ch; c_int repeat];
      Dwf "FDwfAnalogOutConfigure" [h; ch; c_bool true]].

(** The first [len] entries of the two measurement lists are the samples
    the scope returned from number [s0] on, alternately: channel 1, channel
    2. *)
Definition paired {V} (env : environment V) (s0 len : nat) (l : locals V) : Prop :=
  ramp_measurements l = map (fun i => voltage env (s0 + 2 * i)) (seq 0 len)
  /\ opamp_measurements l = map (fun i => voltage env (s0 + 2 * i + 1)) (seq 0 len).

(** The constants of the source with the amplitude negated. *)
Definition backward_settings : settings B64.t := {|
  initial_power_up := of_int (-5);
  amplitude := of_int (-5);
  amplitude_slope := of_Q (5 # 100);
  time_per_measurement := of_Q (1 # 1000000);
  cycles := 1
|}.

(** The constants of the source with a step of zero. *)
Definition still_settings : settings B64.t := {|
  initial_power_up := of_int (-5);
  amplitude := of_int 5;
  amplitude_slope := of_int 0;
  time_per_measurement := of_Q (1 # 1000000);
  cycles := 1
|}.

(** The constants of the source with a negative delay between
    measurements. *)
Definition hasty_settings : settings B64.t := {|
  initial_power_up := of_int (-5);
  amplitude := of_int 5;
  amplitude_slope := of_Q (5 # 100);
  time_per_measurement := of_int (-1);
  cycles := 1
|}.

(** The offset a driver call gives the generator, if it is a call to
    [FDwfAnalogOutNodeOffsetSet]. *)
Definition offset_of {V} (e : event V) : option V :=
  match e with
  | Dwf fn args =>
      if String.eqb fn "FDwfAnalogOutNodeOffsetSet" then
        match args !! 3%nat with
        | Some (CDouble v) => Some v
        | _ => None
        end
      else None
  | _ => None
  end.

(** The offsets a trace gives the generator, in order. *)
Definition offsets {V} (tr : list (event V)) : list V := omap offset_of tr.

(** * Properties *)

Section Loops.
Context {V : Type} `{PyNum V}.

(** A [for] loop whose body keeps an invariant, indexed by the number of
    rounds done, runs to its end and establishes the invariant there. *)
Lemma for_range_from_rule {S} (P : nat -> S -> world V -> Prop)
    (body : Z -> S -> M V S) (n : nat) :
  forall start,
  (forall k s w, (k < n)%nat -> P k s w ->
     exists s' w', body (start + Z.of_nat k) s w = Ok s' w' /\ P (Datatypes.S k) s' w') ->
  forall s w, P 0%nat s w ->
  exists s' w', for_range_from start n body s w = Ok s' w' /\ P n s' w'.
Proof.
  revert P. induction n as [|n IH]; intros P start Hbody s w HP.
  - exists s, w. split; [reflexivity | assumption].
  - destruct (Hbody 0%nat s w ltac:(lia) HP) as (s1 & w1 & Hb & HP1).
    rewrite Z.add_0_r in Hb.
    destruct (IH (fun k => P (Datatypes.S k)) (start + 1)) with (s := s1) (w := w1)
      as (s2 & w2 & Hloop & HP2).
    + intros k s' w' Hk HPk.
      destruct (Hbody (Datatypes.S k) s' w' ltac:(lia) HPk) as (s3 & w3 & Hb3 & HP3).
      exists s3, w3. split; [|assumption].
      rewrite <- Hb3. f_equal. lia.
    + assumption.
    + exists s2, w2. split; [|assumption].
      simpl. unfold bind. rewrite Hb. exact Hloop.
Qed.

Lemma for_range_rule {S} (P : nat -> S -> world V -> Prop)
    (body : Z -> S -> M V S) (start stop : Z) :
  (forall k s w, (k < Z.to_nat (stop - start))%nat -> P k s w ->
     exists s' w', body (start + Z.of_nat k) s w = Ok s' w' /\ P (Datatypes.S k) s' w') ->
  forall s w, P 0%nat s w ->
  exists s' w', for_range start stop body s w = Ok s' w'
                /\ P (Z.to_nat (stop - start)) s' w'.
Proof. intros Hbody s w HP. unfold for_range. eapply for_range_from_rule; eauto. Qed.

End Loops.

(** ** What one iteration does *)

Section Calls.
Context {V : Type} `{PyNum V}.

Lemma advance_advance evs1 c1 s1 p1 evs2 c2 s2 p2 (w : world V) :
  advance evs2 c2 s2 p2 (advance evs1 c1 s1 p1 w)
  = advance (evs1 ++ evs2) (c1 + c2) (s1 + s2) (p1 + p2) w.
Proof.
  unfold advance; simpl. f_equal; [symmetry; apply app_assoc | lia..].
Qed.

Lemma advance_nil (w : world V) : advance [] 0 0 0 w = w.
Proof.
  destruct w; unfold advance; simpl. rewrite app_nil_r, !Nat.add_0_r. reflexivity.
Qed.

Lemma trace_advance evs c s p (w : world V) :
  trace (advance evs c s p w) = trace w ++ evs.
Proof. reflexivity. Qed.

Lemma globals_advance evs c s p (w : world V) :
  globals (advance evs c s p w) = globals w.
Proof. reflexivity. Qed.

Lemma clock_reads_advance evs c s p (w : world V) :
  clock_reads (advance evs c s p w) = (clock_reads w + c)%nat.
Proof. reflexivity. Qed.

Lemma samples_read_advance evs c s p (w : world V) :
  samples_read (advance evs c s p w) = (samples_read w + s)%nat.
Proof. reflexivity. Qed.

Lemma polls_advance evs c s p (w : world V) :
  polls (advance evs c s p w) = (polls w + p)%nat.
Proof. reflexivity. Qed.

Lemma bind_ok {A B} (m : M V A) (k : A -> M V B) a w w' :
  m w = Ok a w' -> bind m k w = k a w'.
Proof. intros Hm. unfold bind. rewrite Hm. reflexivity. Qed.

Lemma log_eq (e : event V) w : log e w = Ok tt (advance [e] 0 0 0 w).
Proof. unfold log, advance. rewrite !Nat.add_0_r. reflexivity. Qed.

Lemma dwf_eq fn (args : list (carg V)) w :
  dwf fn args w = Ok tt (advance [Dwf fn args] 0 0 0 w).
Proof. apply log_eq. Qed.

Lemma count_calls_app fn (tr1 tr2 : list (event V)) :
  count_calls fn (tr1 ++ tr2) = (count_calls fn tr1 + count_calls fn tr2)%nat.
Proof.
  induction tr1 as [|e tr1 IH]; [reflexivity|].
  destruct e as [fn' args| | | | |]; cbn [app count_calls]; try exact IH.
  destruct (String.eqb fn fn'); rewrite IH; reflexivity.
Qed.

Lemma bind_raise {A B} (m : M V A) (k : A -> M V B) e w w' :
  m w = Raise e w' -> bind m k w = Raise e w'.
Proof. intros Hm. unfold bind. rewrite Hm. reflexivity. Qed.

Lemma load_global_unbound name (w : world V) :
  globals w !! name = None -> load_global name w = Raise (NameError name) w.
Proof. intros Hn. unfold load_global. rewrite Hn. reflexivity. Qed.

Lemma load_global_bound name o (w : world V) :
  globals w !! name = Some o -> load_global name w = Ok o w.
Proof. intros Hn. unfold load_global. rewrite Hn. reflexivity. Qed.

Lemma imported_advance evs c s p (w : world V) :
  imported w -> imported (advance evs c s p w).
Proof. intros Hw. exact Hw. Qed.

(** Where [time] is the module, [time.sleep(d)] sleeps if the duration is
    accepted, and [time.time()] reads the clock. *)
Lemma time_sleep_eq (env : environment V) (d : V) w :
  imported w -> sleep_raises env d = None ->
  time_sleep env d w = Ok tt (advance [TimeSleep d] 0 0 0 w).
Proof.
  intros Hw Hd. unfold time_sleep.
  erewrite bind_ok by (apply load_global_bound; exact Hw).
  erewrite bind_ok by reflexivity.
  unfold call_sleep. rewrite Hd. apply log_eq.
Qed.

Lemma time_time_eq (env : environment V) w :
  imported w ->
  time_time env w
  = Ok (clock env (clock_reads w))
       (advance [TimeTime (clock env (clock_reads w))] 1 0 0 w).
Proof.
  intros Hw. unfold time_time.
  erewrite bind_ok by (apply load_global_bound; exact Hw).
  erewrite bind_ok by reflexivity.
  unfold call_time, read_clock, advance. rewrite !Nat.add_0_r, Nat.add_1_r. reflexivity.
Qed.

Lemma status_sample_eq (env : environment V) h ch w :
  status_sample env h ch w
  = Ok (voltage env (samples_read w))
       (advance [Dwf "FDwfAnalogInStatusSample"
                   [h; ch; OutDouble (voltage env (samples_read w))]] 0 1 0 w).
Proof.
  unfold status_sample, advance. rewrite !Nat.add_0_r, Nat.add_1_r. reflexivity.
Qed.

Lemma status_poll_eq (env : environment V) h w :
  status_poll env h w
  = Ok (status env (polls w))
       (advance [Dwf "FDwfAnalogInStatus"
                   [h; c_bool true; OutByte (status env (polls w))]] 0 0 1 w).
Proof.
  unfold status_poll, advance. rewrite !Nat.add_0_r, Nat.add_1_r. reflexivity.
Qed.

End Calls.

(** Run the next call of a sequence by its equation. *)
Ltac tidy :=
  rewrite ?advance_advance, ?clock_reads_advance, ?samples_read_advance,
    ?polls_advance, ?globals_advance;
  cbn [Nat.add app]; rewrite ?Nat.add_0_r.
Ltac run_with lem :=
  erewrite bind_ok by (apply lem); tidy.
Ltac solve_imported :=
  first [ assumption | apply imported_advance; assumption ].
Ltac run :=
  first [ run_with dwf_eq | run_with log_eq
        | run_with status_sample_eq | run_with status_poll_eq
        | erewrite bind_ok
            by (apply time_sleep_eq; [solve_imported | assumption]); tidy
        | erewrite bind_ok by (apply time_time_eq; solve_imported); tidy ].

Section Sweep.
Context {V : Type} `{PyNum V}.

Lemma measure_eq (env : environment V) d ch w :
  measure_oscilloscope env d ch w
  = Ok (voltage env (samples_read w))
       (advance (measure_events d ch (voltage env (samples_read w))) 0 1 0 w).
Proof.
  unfold measure_oscilloscope. do 3 run. reflexivity.
Qed.

Lemma set_output_eq (d : device_data) (p : V) w :
  set_output d p w = Ok tt (advance (output_events d p) 0 0 0 w).
Proof.
  unfold set_output, generate_function.
  destruct (decide (dc = custom)) as [?|_]; [discriminate|].
  do 2 run. erewrite bind_ok by reflexivity. do 7 run.
  rewrite dwf_eq; tidy. reflexivity.
Qed.

Lemma rising_step_eq env c d start_time l w :
  imported w -> sleep_raises env (time_per_measurement c) = None ->
  rising_step env c d start_time l w
  = Ok (step_locals env start_time (add (power_up l) (amplitude_slope c)) l w)
       (advance (step_events env c d (add (power_up l) (amplitude_slope c)) w) 1 2 0 w).
Proof.
  intros Hw Hnap. unfold rising_step.
  do 2 run_with measure_eq. run_with set_output_eq. do 2 run.
  reflexivity.
Qed.

Lemma falling_step_eq env c d start_time l w :
  imported w -> sleep_raises env (time_per_measurement c) = None ->
  falling_step env c d start_time l w
  = Ok (step_locals env start_time (sub (power_up l) (amplitude_slope c)) l w)
       (advance (step_events env c d (sub (power_up l) (amplitude_slope c)) w) 1 2 0 w).
Proof.
  intros Hw Hnap. unfold falling_step.
  do 2 run_with measure_eq. run_with set_output_eq. do 2 run.
  reflexivity.
Qed.

Lemma phase_locals_0 env start_time f l w :
  phase_locals env start_time f 0 l w = l.
Proof.
  destruct l; unfold phase_locals; simpl. rewrite !app_nil_r. reflexivity.
Qed.

Lemma phase_locals_S env start_time f n l w evs :
  step_locals env start_time (f (power_up (phase_locals env start_time f n l w)))
    (phase_locals env start_time f n l w) (advance evs n (2 * n) 0 w)
  = phase_locals env start_time f (S n) l w.
Proof.
  unfold step_locals, phase_locals.
  cbn [ramp_measurements opamp_measurements Times power_up].
  rewrite clock_reads_advance, samples_read_advance.
  rewrite !seq_S, !map_app, !app_assoc. reflexivity.
Qed.

(** A loop of [n] iterations of such a body. *)
Lemma phase_eq env c d start_time f (body : Z -> locals V -> M V (locals V)) :
  (forall i l w, imported w ->
     body i l w = Ok (step_locals env start_time (f (power_up l)) l w)
                     (advance (step_events env c d (f (power_up l)) w) 1 2 0 w)) ->
  forall n start l w, imported w ->
  exists evs, for_range_from start n body l w
              = Ok (phase_locals env start_time f n l w) (advance evs n (2 * n) 0 w).
Proof.
  intros Hbody n start l w Hw.
  destruct (for_range_from_rule
              (fun k l' w' => l' = phase_locals env start_time f k l w
                              /\ exists evs, w' = advance evs k (2 * k) 0 w)
              body n start) with (s := l) (w := w) as (l' & w' & Hrun & -> & evs & ->).
  - intros k l' w' _ (-> & evs & ->).
    eexists _, _. split; [apply Hbody, imported_advance, Hw|]. split.
    + apply phase_locals_S.
    + eexists. rewrite advance_advance. f_equal; lia.
  - split; [symmetry; apply phase_locals_0|].
    exists []. symmetry. apply advance_nil.
  - exists evs. exact Hrun.
Qed.

Lemma rising_phase_eq env c d start_time steps l w :
  imported w -> sleep_raises env (time_per_measurement c) = None ->
  exists evs,
    rising_phase env c d start_time steps l w
    = Ok (phase_locals env start_time (fun p => add p (amplitude_slope c))
            (Z.to_nat (steps * 2)) l w)
         (advance evs (Z.to_nat (steps * 2)) (2 * Z.to_nat (steps * 2)) 0 w).
Proof.
  intros Hw Hnap. unfold rising_phase, for_range. rewrite Z.sub_0_r.
  apply phase_eq with (c := c) (d := d); [|exact Hw].
  intros i l' w' Hw'. apply rising_step_eq; assumption.
Qed.

Lemma falling_phase_eq env c d start_time steps l w :
  imported w -> sleep_raises env (time_per_measurement c) = None ->
  exists evs,
    falling_phase env c d start_time steps l w
    = Ok (phase_locals env start_time (fun p => sub p (amplitude_slope c))
            (Z.to_nat (steps * 2)) l w)
         (advance evs (Z.to_nat (steps * 2)) (2 * Z.to_nat (steps * 2)) 0 w).
Proof.
  intros Hw Hnap. unfold falling_phase, for_range. rewrite Z.sub_0_r.
  apply phase_eq with (c := c) (d := d); [|exact Hw].
  intros i l' w' Hw'. apply falling_step_eq; assumption.
Qed.

Lemma phase_locals_world env start_time f n l evs evs' c s p (w : world V) :
  phase_locals env start_time f n l (advance evs c s p w)
  = phase_locals env start_time f n l (advance evs' c s p w).
Proof. reflexivity. Qed.

Lemma cycle_eq env c d start_time steps j l w :
  imported w -> sleep_raises env (time_per_measurement c) = None ->
  let n := Z.to_nat (steps * 2) in
  exists evs,
    cycle env c d start_time steps j l w
    = Ok (cycle_locals env c start_time n l w)
         (advance evs (2 * n + 1) (4 * n) 0 w).
Proof.
  intros Hw Hnap n. unfold cycle.
  destruct (rising_phase_eq env c d start_time steps l w Hw Hnap) as (evs1 & H1).
  erewrite bind_ok by exact H1.
  match goal with |- context [bind (falling_phase _ _ _ _ _ ?l1) _ ?w1] =>
    destruct (falling_phase_eq env c d start_time steps l1 w1
                (imported_advance _ _ _ _ _ Hw) Hnap) as (evs2 & H2)
  end.
  erewrite bind_ok by exact H2. fold n. tidy.
  do 2 run. eexists. unfold ret. f_equal. f_equal; lia.
Qed.

(** ** The calls before the timer, and the whole of [main] *)

Lemma open_oscilloscope_eq d sampling_frequency buffer_size offset amplitude_range
    (w : world V) :
  open_oscilloscope d sampling_frequency buffer_size offset amplitude_range w
  = Ok tt (advance (scope_events d sampling_frequency buffer_size offset
                      amplitude_range) 0 0 0 w).
Proof.
  unfold open_oscilloscope. do 5 run. rewrite dwf_eq; tidy. reflexivity.
Qed.

Lemma switch_variable_eq d master_state positive_state negative_state
    positive_voltage negative_voltage w :
  _switch_variable_ d master_state positive_state negative_state
    positive_voltage negative_voltage w
  = Ok tt (advance
             (supply_events d master_state positive_state negative_state
                (py_max (of_int 0) (py_min (of_int 5) positive_voltage))
                (py_max (of_int (-5)) (py_min (of_int 0) negative_voltage)))
             0 0 0 w).
Proof.
  unfold _switch_variable_. do 4 run. rewrite dwf_eq; tidy. reflexivity.
Qed.

Lemma device_open_eq (env : environment V) w :
  device_open env w
  = Ok {| handle := opened env |} (advance [DeviceOpen (opened env)] 0 0 0 w).
Proof. unfold device_open. run. reflexivity. Qed.

Lemma setup_eq env c w :
  imported w -> sleep_raises env (of_Q (1 # 2)) = None ->
  setup env c w = Ok {| handle := opened env |} (advance (setup_events env c) 0 0 0 w).
Proof.
  intros Hw Hhalf. unfold setup. run_with device_open_eq. run.
  run_with open_oscilloscope_eq. run_with switch_variable_eq. do 2 run.
  run_with set_output_eq. run. reflexivity.
Qed.

Lemma sweep_locals_world env c start_time n k l evs evs' a b p (w : world V) :
  sweep_locals env c start_time n k l (advance evs a b p w)
  = sweep_locals env c start_time n k l (advance evs' a b p w).
Proof.
  induction k as [|k IH]; [reflexivity|].
  cbn [sweep_locals]. rewrite IH. reflexivity.
Qed.

Lemma sweep_eq env c d start_time steps l w :
  imported w -> sleep_raises env (time_per_measurement c) = None ->
  let n := Z.to_nat (steps * 2) in
  let k := Z.to_nat (cycles c) in
  exists evs,
    sweep env c d start_time steps l w
    = Ok (sweep_locals env c start_time n k l w)
         (advance evs (k * (2 * n + 1)) (k * (4 * n)) 0 w).
Proof.
  intros Hw Hnap n k. unfold sweep.
  destruct (for_range_rule
              (fun i l' w' => l' = sweep_locals env c start_time n i l w
                 /\ exists evs, w' = advance evs (i * (2 * n + 1)) (i * (4 * n)) 0 w)
              (cycle env c d start_time steps) 0 (cycles c))
    with (s := l) (w := w) as (l' & w' & Hrun & -> & evs & ->).
  - intros i l' w' _ (-> & evs & ->).
    destruct (cycle_eq env c d start_time steps (0 + Z.of_nat i)
                (sweep_locals env c start_time n i l w)
                (advance evs (i * (2 * n + 1)) (i * (4 * n)) 0 w)
                (imported_advance _ _ _ _ _ Hw) Hnap) as (evs' & Hc).
    eexists _, _. split; [exact Hc|]. split; [reflexivity|].
    eexists. rewrite advance_advance. f_equal; fold n; lia.
  - split; [reflexivity|]. exists []. symmetry. apply advance_nil.
  - rewrite Z.sub_0_r in Hrun. exists evs. exact Hrun.
Qed.

Lemma main_eq env c steps w :
  imported w -> sleeps env c ->
  rmap_steps c = inr steps ->
  let n := Z.to_nat (steps * 2) in
  let k := Z.to_nat (cycles c) in
  let start_time := clock env (clock_reads w) in
  exists evs,
    main env c w
    = Ok (sweep_locals env c start_time n k (initial_locals c)
            (advance [] 1 0 0 w))
         (advance evs (1 + k * (2 * n + 1)) (k * (4 * n)) 0 w).
Proof.
  intros Hw (Hhalf & Hnap) Hsteps n k start_time. unfold main.
  erewrite bind_ok by (rewrite Hsteps; reflexivity).
  erewrite bind_ok by (apply setup_eq; assumption). run.
  match goal with |- context [sweep _ _ ?d ?t _ ?l ?w1] =>
    destruct (sweep_eq env c d t steps l w1 (imported_advance _ _ _ _ _ Hw) Hnap)
      as (evs & Hs)
  end.
  rewrite Hs. tidy. eexists.
  rewrite (sweep_locals_world _ _ _ _ _ _ _ []). reflexivity.
Qed.

Lemma main_raises env c e w :
  rmap_steps c = inl e -> main env c w = Raise e w.
Proof. intros He. unfold main, bind, lift. rewrite He. reflexivity. Qed.

End Sweep.

(** ** How many samples a sweep records *)

Section Count.
Context {V : Type} `{PyNum V}.

Lemma recorded_phase env start_time f n len l w :
  recorded len l -> recorded (len + n) (phase_locals env start_time f n l w).
Proof.
  intros (Ht & Hr & Ho). unfold recorded, phase_locals.
  cbn [Times ramp_measurements opamp_measurements].
  rewrite !length_app, !length_map, !length_seq. lia.
Qed.

Lemma recorded_cycle env c start_time n len l w :
  recorded len l -> recorded (len + 2 * n) (cycle_locals env c start_time n l w).
Proof.
  intros Hl. unfold cycle_locals.
  replace (len + 2 * n)%nat with (len + n + n)%nat by lia.
  do 2 apply recorded_phase. exact Hl.
Qed.

Lemma recorded_sweep env c start_time n k len l w :
  recorded len l ->
  recorded (len + k * (2 * n)) (sweep_locals env c start_time n k l w).
Proof.
  intros Hl. induction k as [|k IH]; cbn [sweep_locals].
  - replace (len + 0 * (2 * n))%nat with len by lia. exact Hl.
  - replace (len + S k * (2 * n))%nat with (len + k * (2 * n) + 2 * n)%nat by lia.
    apply recorded_cycle. exact IH.
Qed.


End Count.



(** ** A sweep of zero steps *)

Section Degenerate.
Context {V : Type} `{PyNum V}.

Lemma sweep_locals_zero env (c : settings V) start_time k l w :
  sweep_locals env c start_time 0 k l w = l.
Proof.
  induction k as [|k IH]; [reflexivity|].
  cbn [sweep_locals]. rewrite IH. unfold cycle_locals.
  rewrite !phase_locals_0. reflexivity.
Qed.

(** With no step to make, a round of the outer loop reads the clock and
    prints. *)
Lemma cycle_idle env c d start_time steps j l w :
  imported w -> steps <= 0 ->
  cycle env c d start_time steps j l w
  = Ok l (advance [TimeTime (clock env (clock_reads w));
                   PrintCycle (j + 1) (sub (clock env (clock_reads w)) start_time)]
            1 0 0 w).
Proof.
  intros Hw Hsteps. unfold cycle, rising_phase, falling_phase, for_range.
  replace (Z.to_nat (steps * 2 - 0)) with 0%nat by lia.
  cbn [for_range_from]. do 2 (erewrite bind_ok by reflexivity).
  do 2 run. reflexivity.
Qed.

(** With no step or no cycle to make, [main] samples nothing, and sleeps
    only the three half seconds. *)
Lemma main_idle env c steps w :
  imported w -> sleep_raises env (of_Q (1 # 2)) = None ->
  rmap_steps c = inr steps ->
  steps <= 0 \/ cycles c <= 0 ->
  exists evs,
    main env c w = Ok (initial_locals c) (advance evs (1 + Z.to_nat (cycles c)) 0 0 w)
    /\ count_calls "FDwfAnalogInStatusSample" evs = 0%nat.
Proof.
  intros Hw Hhalf Hsteps Hle. unfold main.
  erewrite bind_ok by (rewrite Hsteps; reflexivity).
  erewrite bind_ok by (apply setup_eq; assumption). run.
  unfold sweep.
  destruct (decide (cycles c <= 0)) as [Hc | Hc].
  - unfold for_range. replace (Z.to_nat (cycles c - 0)) with 0%nat by lia.
    cbn [for_range_from]. replace (Z.to_nat (cycles c)) with 0%nat by lia.
    eexists. split; [reflexivity|]. reflexivity.
  - assert (Hs : steps <= 0) by (destruct Hle; [assumption | contradiction]).
    match goal with |- context [for_range 0 (cycles c) ?body ?l0 ?w0] =>
      destruct (for_range_rule
                  (fun i l' w' =>
                     l' = l0
                     /\ exists evs, w' = advance evs i 0 0 w0
                          /\ count_calls "FDwfAnalogInStatusSample" evs = 0%nat)
                  body 0 (cycles c)) with (s := l0) (w := w0)
        as (l' & w' & Hrun & -> & evs & -> & Hevs)
    end.
    + intros i l' w' _ (-> & evs & -> & Hevs).
      eexists _, _. split.
      * apply cycle_idle; [apply imported_advance, imported_advance, Hw | exact Hs].
      * split; [reflexivity|]. eexists. split.
        -- rewrite advance_advance. f_equal; lia.
        -- rewrite count_calls_app, Hevs. reflexivity.
    + split; [reflexivity|]. exists []. split; [symmetry; apply advance_nil | reflexivity].
    + rewrite Hrun, Z.sub_0_r. tidy. eexists. split; [reflexivity|].
      rewrite count_calls_app, Hevs. reflexivity.
Qed.

End Degenerate.



(** ** The order of the calls in one iteration *)

(** C3, as the code has it.  Let [time] be imported and [time.sleep]
    accept the delay.  The calls of a rising iteration are, in this order:
    the three driver calls that sample channel 1 (the value joins
    [ramp_measurements]), the three that sample channel 2 (the value joins
    [opamp_measurements]), the ten that configure the generator with the
    output raised by [amplitude_slope], then the reading of the clock (the
    elapsed time joins [Times]), then the sleep.  A falling iteration is
    the same with the output lowered by [amplitude_slope]. *)
Theorem iteration_order :
  forall V (N : PyNum V) (env : environment V) (c : settings V) d start_time l
         (w : world V),
    imported w -> sleep_raises env (time_per_measurement c) = None ->
    let v1 := voltage env (samples_read w) in
    let v2 := voltage env (samples_read w + 1) in
    let now := clock env (clock_reads w) in
    let calls p :=
      measure_events d 1 v1 ++ measure_events d 2 v2 ++ output_events d p
      ++ [TimeTime now; TimeSleep (time_per_measurement c)] in
    let after p :=
      {| ramp_measurements := ramp_measurements l ++ [v1];
         opamp_measurements := opamp_measurements l ++ [v2];
         Times := Times l ++ [sub now start_time];
         power_up := p |} in
    let up := add (power_up l) (amplitude_slope c) in
    let down := sub (power_up l) (amplitude_slope c) in
    rising_step env c d start_time l w = Ok (after up) (advance (calls up) 1 2 0 w)
    /\ falling_step env c d start_time l w = Ok (after down) (advance (calls down) 1 2 0 w).
Proof.
  intros. split; [apply rising_step_eq | apply falling_step_eq]; assumption.
Qed.

(** The first iteration of the source's sweep on the bench, in the namespace
    of the file with [time] imported. *)
Lemma iteration_order_witness :
  let env := bench64 in
  let c := main_settings (V := B64.t) in
  let d := {| handle := 1 |} in
  let start_time := of_int (V := B64.t) 0 in
  let l := initial_locals c in
  let w := import_time (loaded B64.t) in
  let v1 := voltage env (samples_read w) in
  let v2 := voltage env (samples_read w + 1) in
  let now := clock env (clock_reads w) in
  let calls p :=
    measure_events d 1 v1 ++ measure_events d 2 v2 ++ output_events d p
    ++ [TimeTime now; TimeSleep (time_per_measurement c)] in
  let after p :=
    {| ramp_measurements := ramp_measurements l ++ [v1];
       opamp_measurements := opamp_measurements l ++ [v2];
       Times := Times l ++ [sub now start_time];
       power_up := p |} in
  let up := add (power_up l) (amplitude_slope c) in
  let down := sub (power_up l) (amplitude_slope c) in
  rising_step env c d start_time l w = Ok (after up) (advance (calls up) 1 2 0 w)
  /\ falling_step env c d start_time l w = Ok (after down) (advance (calls down) 1 2 0 w).
Proof.
  apply (iteration_order B64.t binary64 bench64 main_settings {| handle := 1 |}
           (of_int 0) (initial_locals main_settings) (import_time (loaded B64.t))).
  - vm_compute. reflexivity.
  - vm_compute. reflexivity.
Defined.

(** C3 as the specification states it fails on the first iteration of the
    source's sweep, in the namespace of the file with [time] imported: the
    first generator call is the 7th call of the iteration and the clock is
    read 17th, after the ten generator calls. *)
Lemma iteration_order_counterexample :
  exists l w,
    rising_step bench64 main_settings {| handle := 1 |} (of_int 0)
      (initial_locals main_settings) (import_time (loaded B64.t)) = Ok l w
    /\ output_position (trace w) = Some 6%nat
    /\ clock_read_position (trace w) = Some 16%nat
    /\ ~ stamped_before_output (trace w).
Proof.
  eexists _, _.
  split; [vm_compute; reflexivity|].
  split; [vm_compute; reflexivity|].
  split; [vm_compute; reflexivity|].
  intros (i & j & Hi & Hj & Hij).
  vm_compute in Hi, Hj. injection Hi as <-. injection Hj as <-. lia.
Qed.

(** ** The two definitions of the power-supply function *)

(** C9.  The definition of lines 207-233 and the one of lines 235-261 that
    replaces it make the same driver calls with the same values and leave
    the same world, whatever the arguments. *)
Theorem switch_variable_definitions_agree :
  forall V (N : PyNum V) d master_state positive_state negative_state
         (positive_voltage negative_voltage : V) (w : world V),
    _switch_variable__207 d master_state positive_state negative_state
      positive_voltage negative_voltage w
    = _switch_variable_ d master_state positive_state negative_state
        positive_voltage negative_voltage w.
Proof. intros. reflexivity. Qed.

(** ** Clamping of the supply voltages, in binary64 *)

Lemma b64_literals :
  of_int (V := B64.t) 0 = S754_zero false
  /\ of_int (V := B64.t) 5 = S754_finite false 5629499534213120 (-50)
  /\ of_int (V := B64.t) (-5) = S754_finite true 5629499534213120 (-50)
  /\ of_int (V := B64.t) 10 = S754_finite false 5629499534213120 (-49)
  /\ of_int (V := B64.t) (-10) = S754_finite true 5629499534213120 (-49).
Proof. vm_compute. repeat split. Qed.

Ltac split_compare :=
  repeat (cbn [SFcompare CompOpp]; rewrite ?Z.compare_refl, ?Pos.compare_cont_refl;
          match goal with
          | |- context [Z.compare ?a ?b] => destruct (Z.compare a b) eqn:?
          | |- context [Pos.compare_cont Eq ?a ?b] =>
              destruct (Pos.compare_cont Eq a b) eqn:?
          end).

Ltac clamp_cases x :=
  unfold clamped, py_max, py_min, lt, gt, le, eqv; cbn [cmp binary64];
  destruct x as [s|s| |s m e]; try destruct s;
  split_compare; cbn [SFcompare CompOpp];
  rewrite ?Z.compare_refl, ?Pos.compare_cont_refl;
  repeat split; intros; try congruence;
  repeat match goal with
  | H1 : Pos.compare_cont Eq ?a ?b = _, H2 : Pos.compare_cont Eq ?b ?a = _ |- _ =>
      let Ha := fresh in
      pose proof (Pos.compare_cont_antisym a b Eq) as Ha;
      rewrite H1 in Ha; cbn [CompOpp] in Ha; rewrite H2 in Ha; discriminate Ha
  | H1 : Z.compare ?a ?b = _, H2 : Z.compare ?b ?a = _ |- _ =>
      let Ha := fresh in
      pose proof (Z.compare_antisym a b) as Ha;
      rewrite H1, H2 in Ha; discriminate Ha
  end.

Lemma clamp_positive (x : B64.t) :
  clamped (of_int 0) (of_int 5) x (py_max (of_int 0) (py_min (of_int 5) x)).
Proof.
  destruct b64_literals as (-> & -> & _). clamp_cases x.
Qed.

Lemma clamp_negative (x : B64.t) :
  clamped (of_int (-5)) (of_int 0) x (py_max (of_int (-5)) (py_min (of_int 0) x)).
Proof.
  destruct b64_literals as (-> & _ & -> & _). clamp_cases x.
Qed.

(** C4.  For every binary64 input (infinities and nan included) the
    power-supply function makes five driver calls in this order: the positive
    voltage, the negative voltage, the positive rail switch, the negative
    rail switch, the master switch.  The positive voltage applied is the
    input clamped to [[0, 5]], the negative one the input clamped to
    [[-5, 0]]; inputs 10 and -10 apply exactly 5 and -5. *)
Theorem supplies_clamped :
  forall d master_state positive_state negative_state
         (positive_voltage negative_voltage : B64.t) w,
    (exists vp vn,
       _switch_variable_ d master_state positive_state negative_state
         positive_voltage negative_voltage w
       = Ok tt (advance (supply_events d master_state positive_state
                           negative_state vp vn) 0 0 0 w)
       /\ clamped (of_int 0) (of_int 5) positive_voltage vp
       /\ clamped (of_int (-5)) (of_int 0) negative_voltage vn)
    /\ _switch_variable_ d master_state positive_state negative_state
         (of_int 10) (of_int (-10)) w
       = Ok tt (advance (supply_events d master_state positive_state
                           negative_state (of_int 5) (of_int (-5))) 0 0 0 w).
Proof.
  intros. split.
  - eexists _, _. split; [apply switch_variable_eq|].
    split; [apply clamp_positive | apply clamp_negative].
  - rewrite switch_variable_eq. reflexivity.
Qed.

(** ** Upload of a custom waveform *)

Section Custom.
Context {V : Type} `{PyNum V}.

(** Lines 169-171 copy the caller's list into the fresh array. *)
Lemma fill_buffer_eq (data : list V) (zero : V) w :
  fill_buffer data (replicate (length data) zero) w = Ok data w.
Proof.
  unfold fill_buffer. rewrite length_replicate.
  destruct (for_range_rule
              (fun k (buffer : list V) w' =>
                 w' = w /\ buffer = take k data ++ replicate (length data - k) zero)
              (fun index buffer =>
                 match data !! Z.to_nat index with
                 | Some x => ret (<[Z.to_nat index := x]> buffer)
                 | None => raise IndexError
                 end) 0 (Z.of_nat (length data)))
    with (s := replicate (length data) zero) (w := w)
    as (buffer & w' & Hrun & -> & Hbuf).
  - intros k buffer w' Hk (-> & ->).
    rewrite Z.sub_0_r, Nat2Z.id in Hk. rewrite Z.add_0_l, Nat2Z.id.
    destruct (lookup_lt_is_Some_2 data k Hk) as [x Hx]. rewrite Hx.
    eexists _, _. split; [reflexivity|]. split; [reflexivity|].
    rewrite insert_app_r_alt by (rewrite length_take; lia).
    rewrite length_take, Nat.min_l by lia. rewrite Nat.sub_diag.
    replace (length data - k)%nat with (S (length data - S k)) by lia.
    cbn [replicate]. rewrite (take_S_r _ _ _ Hx), <- app_assoc. reflexivity.
  - split; [reflexivity|]. rewrite Nat.sub_0_r. reflexivity.
  - rewrite Z.sub_0_r, Nat2Z.id, firstn_all, Nat.sub_diag, app_nil_r in Hbuf.
    rewrite Hrun, Hbuf. reflexivity.
Qed.

Lemma wrap_int_small z : - 2^31 <= z <= INT_MAX -> wrap_int z = z.
Proof.
  unfold wrap_int, INT_MAX. intros Hz.
  rewrite Z.mod_small by lia. lia.
Qed.

End Custom.

(** C7.  With the function kind [custom] and a list of N samples (N a C
    [int]), the one call to [FDwfAnalogOutNodeDataSet] receives an array
    equal to the caller's list, cell for cell and in the same order, hence of
    length N, and the length N as its last argument. *)
Theorem custom_waveform_verbatim :
  forall V (N : PyNum V) d channel (offset frequency amplitude symmetry wait run_time : V)
         repeat (data : list V) w,
    Z.of_nat (length data) <= INT_MAX ->
    let h := CInt (handle d) in
    let ch := c_int (channel - 1) in
    let carrier := Const "AnalogOutNodeCarrier" in
    generate_function d channel custom offset frequency amplitude symmetry wait
      run_time repeat data w
    = Ok tt (advance
        [Dwf "FDwfAnalogOutNodeEnableSet" [h; ch; carrier; c_bool true];
         Dwf "FDwfAnalogOutNodeFunctionSet" [h; ch; carrier; Const "funcCustom"];
         Dwf "FDwfAnalogOutNodeDataSet"
           [h; ch; carrier; CArray data; CInt (Z.of_nat (length data))];
         Dwf "FDwfAnalogOutNodeFrequencySet" [h; ch; carrier; c_double frequency];
         Dwf "FDwfAnalogOutNodeAmplitudeSet" [h; ch; carrier; c_double amplitude];
         Dwf "FDwfAnalogOutNodeOffsetSet" [h; ch; carrier; c_double offset];
         Dwf "FDwfAnalogOutNodeSymmetrySet" [h; ch; carrier; c_double symmetry];
         Dwf "FDwfAnalogOutRunSet" [h; ch; c_double run_time];
         Dwf "FDwfAnalogOutWaitSet" [h; ch; c_double wait];
         Dwf "FDwfAnalogOutRepeatSet" [h; ch; c_int repeat];
         Dwf "FDwfAnalogOutConfigure" [h; ch; c_bool true]] 0 0 0 w).
Proof.
  intros V N d channel offset frequency amplitude symmetry wait run_time
    repeat data w Hlen h ch carrier.
  unfold generate_function.
  destruct (decide (custom = custom)) as [_|Hne]; [|congruence].
  do 2 run.
  rewrite Nat2Z.id.
  erewrite bind_ok.
  2:{ erewrite bind_ok by apply fill_buffer_eq. apply dwf_eq. }
  tidy. do 7 run. rewrite dwf_eq; tidy.
  replace (c_int (V := V) (Z.of_nat (length data)))
    with (CInt (V := V) (Z.of_nat (length data)))
    by (unfold c_int; rewrite wrap_int_small by lia; reflexivity).
  reflexivity.
Qed.

Lemma custom_waveform_verbatim_witness :
  generate_function {| handle := 1 |} 1 custom (of_int 0) (of_int 1000)
    (of_int 1) (of_int 50) (of_int 0) (of_int 0) 0
    [of_Q (1 # 2); of_int (-1); of_Q (1 # 4)] (loaded B64.t)
  = Ok tt
      (advance
        [Dwf "FDwfAnalogOutNodeEnableSet"
           [CInt 1; c_int (1 - 1); Const "AnalogOutNodeCarrier"; c_bool true];
         Dwf "FDwfAnalogOutNodeFunctionSet"
           [CInt 1; c_int (1 - 1); Const "AnalogOutNodeCarrier"; Const "funcCustom"];
         Dwf "FDwfAnalogOutNodeDataSet"
           [CInt 1; c_int (1 - 1); Const "AnalogOutNodeCarrier";
            CArray [of_Q (1 # 2); of_int (-1); of_Q (1 # 4)]; CInt 3];
         Dwf "FDwfAnalogOutNodeFrequencySet"
           [CInt 1; c_int (1 - 1); Const "AnalogOutNodeCarrier"; c_double (of_int 1000)];
         Dwf "FDwfAnalogOutNodeAmplitudeSet"
           [CInt 1; c_int (1 - 1); Const "AnalogOutNodeCarrier"; c_double (of_int 1)];
         Dwf "FDwfAnalogOutNodeOffsetSet"
           [CInt 1; c_int (1 - 1); Const "AnalogOutNodeCarrier"; c_double (of_int 0)];
         Dwf "FDwfAnalogOutNodeSymmetrySet"
           [CInt 1; c_int (1 - 1); Const "AnalogOutNodeCarrier"; c_double (of_int 50)];
         Dwf "FDwfAnalogOutRunSet" [CInt 1; c_int (1 - 1); c_double (of_int 0)];
         Dwf "FDwfAnalogOutWaitSet" [CInt 1; c_int (1 - 1); c_double (of_int 0)];
         Dwf "FDwfAnalogOutRepeatSet" [CInt 1; c_int (1 - 1); c_int 0];
         Dwf "FDwfAnalogOutConfigure" [CInt 1; c_int (1 - 1); c_bool true]]
        0 0 0 (loaded B64.t)).
Proof.
  apply (custom_waveform_verbatim B64.t binary64 {| handle := 1 |} 1).
  vm_compute. discriminate.
Defined.

(** ** The unbound name [data] *)

Section Unbound.
Context {V : Type} `{PyNum V}.

(** The polling loop returns once the status is done, given fuel for it. *)
Lemma poll_until_done_eq (env : environment V) h k :
  forall fuel w,
    done_at env (polls w) k -> (k < fuel)%nat ->
    exists evs, poll_until_done env h fuel w = Ok tt (advance evs 0 0 (S k) w).
Proof.
  induction k as [|k IH]; intros fuel w (Hdone & Hbefore) Hfuel;
    (destruct fuel as [|fuel]; [lia|]); cbn [poll_until_done]; run.
  - rewrite Nat.add_0_r in Hdone.
    case_decide; [|contradiction].
    eexists. reflexivity.
  - case_decide as Heq.
    + exfalso. apply (Hbefore 0%nat); [lia|]. rewrite Nat.add_0_r. exact Heq.
    + match goal with |- context [poll_until_done env h fuel ?w1] =>
        destruct (IH fuel w1) as (evs & Hrun)
      end.
      * rewrite polls_advance. split.
        -- rewrite <- Hdone. f_equal. lia.
        -- intros j Hj. specialize (Hbefore (S j) ltac:(lia)).
           intros Hs. apply Hbefore. rewrite <- Hs. f_equal. lia.
      * lia.
      * rewrite Hrun. tidy. eexists. reflexivity.
Qed.

(** It never raises: it returns or runs out of fuel. *)
Lemma poll_until_done_cases (env : environment V) h fuel :
  forall w,
    (exists evs p, poll_until_done env h fuel w = Ok tt (advance evs 0 0 p w))
    \/ (exists w', poll_until_done env h fuel w = Timeout w').
Proof.
  induction fuel as [|fuel IH]; intros w; cbn [poll_until_done].
  - right. eexists. reflexivity.
  - run. case_decide.
    + left. eexists _, _. reflexivity.
    + match goal with |- context [poll_until_done env h fuel ?w1] =>
        destruct (IH w1) as [(evs & p & Hrun) | (w' & Hrun)]
      end.
      * left. rewrite Hrun. tidy. eexists _, _. reflexivity.
      * right. rewrite Hrun. eexists. reflexivity.
Qed.

Lemma open_AD2_unbound (env : environment V) w :
  globals w !! "data" = None ->
  open_AD2 env w
  = Raise (NameError "data")
      (advance [Dwf "FDwfDeviceOpen" [c_int (-1); OutInt (opened env)]] 0 0 0 w).
Proof.
  intros Hd. unfold open_AD2. run.
  apply bind_raise, load_global_unbound. exact Hd.
Qed.

Lemma record_oscilloscope_unbound (env : environment V) fuel d ch w :
  globals w !! "data" = None ->
  (exists w', record_oscilloscope env fuel d ch w = Raise (NameError "data") w')
  \/ (exists w', record_oscilloscope env fuel d ch w = Timeout w').
Proof.
  intros Hd. unfold record_oscilloscope. run.
  match goal with |- context [bind (poll_until_done env ?h fuel) _ ?w1] =>
    destruct (poll_until_done_cases env h fuel w1) as [(evs & p & Hrun) | (w' & Hrun)]
  end.
  - left. erewrite bind_ok by exact Hrun. tidy.
    eexists. apply bind_raise, load_global_unbound. exact Hd.
  - right. exists w'. unfold bind at 1. rewrite Hrun. reflexivity.
Qed.

Lemma record_oscilloscope_unbound_done (env : environment V) fuel d ch k w :
  globals w !! "data" = None ->
  done_at env (polls w) k -> (k < fuel)%nat ->
  exists w', record_oscilloscope env fuel d ch w = Raise (NameError "data") w'.
Proof.
  intros Hd Hdone Hfuel. unfold record_oscilloscope. run.
  match goal with |- context [bind (poll_until_done env ?h fuel) _ ?w1] =>
    destruct (poll_until_done_eq env h k fuel w1) as (evs & Hrun)
  end; [rewrite polls_advance, Nat.add_0_r; exact Hdone | exact Hfuel |].
  erewrite bind_ok by exact Hrun. tidy.
  eexists. apply bind_raise, load_global_unbound. exact Hd.
Qed.

End Unbound.

Lemma module_globals_data V : module_globals V !! "data" = None.
Proof. vm_compute. reflexivity. Qed.

(** C10.  The top level of the file binds no name [data].  In any world where
    [data] is unbound: [open_AD2] raises [NameError] right after the driver
    call that opens the device; [record_oscilloscope] never returns, and
    raises [NameError] as soon as its polling loop sees the done status;
    [open_oscilloscope] returns with the globals as they were, so it binds
    nothing either. *)
Theorem data_is_unbound :
  forall V (N : PyNum V) (env : environment V) (w : world V),
    module_globals V !! "data" = None
    /\ (globals w !! "data" = None ->
        open_AD2 env w
        = Raise (NameError "data")
            (advance [Dwf "FDwfDeviceOpen" [c_int (-1); OutInt (opened env)]] 0 0 0 w)
        /\ (forall fuel d ch r w', record_oscilloscope env fuel d ch w <> Ok r w')
        /\ (forall fuel d ch k,
              done_at env (polls w) k -> (k < fuel)%nat ->
              exists w', record_oscilloscope env fuel d ch w
                         = Raise (NameError "data") w')
        /\ (forall d sampling_frequency buffer_size offset amplitude_range,
              exists w', open_oscilloscope d sampling_frequency buffer_size offset
                           amplitude_range w = Ok tt w'
                         /\ globals w' = globals w)).
Proof.
  intros V N env w. split; [apply module_globals_data|].
  intros Hd. repeat split.
  - apply open_AD2_unbound. exact Hd.
  - intros fuel d ch r w' Hok.
    destruct (record_oscilloscope_unbound env fuel d ch w Hd) as [(w1 & Hr) | (w1 & Hr)];
      rewrite Hr in Hok; discriminate Hok.
  - intros fuel d ch k. apply record_oscilloscope_unbound_done. exact Hd.
  - intros. rewrite open_oscilloscope_eq. eexists. split; reflexivity.
Qed.

Lemma data_is_unbound_witness :
  open_AD2 bench64 (loaded B64.t)
  = Raise (NameError "data")
      (advance [Dwf "FDwfDeviceOpen" [c_int (-1); OutInt (opened bench64)]] 0 0 0
         (loaded B64.t))
  /\ exists w', record_oscilloscope bench64 1 {| handle := 1 |} 1 (loaded B64.t)
                = Raise (NameError "data") w'.
Proof.
  destruct (proj2 (data_is_unbound B64.t binary64 bench64 (loaded B64.t)))
    as (Hopen & _ & Hrec & _).
  - vm_compute. reflexivity.
  - split; [exact Hopen|].
    apply (Hrec 1%nat {| handle := 1 |} 1 0%nat).
    + split; [reflexivity | intros j Hj; lia].
    + lia.
Defined.

(** C8, at a failing input.  The scope is configured with the defaults of
    [open_oscilloscope], the acquisition is done at the first poll, channel 1
    is recorded: the call raises [NameError] for [data] after the one poll,
    where its docstring promises the buffer and the time list. *)
Theorem record_oscilloscope_raises :
  bind (open_oscilloscope {| handle := 1 |} (of_int 20000000) 8921 (of_int 0) (of_int 50))
    (fun _ => record_oscilloscope bench64 1 {| handle := 1 |} 1) (loaded B64.t)
  = Raise (NameError "data")
      (advance
         (scope_events {| handle := 1 |} (of_int 20000000) 8921 (of_int 0) (of_int 50)
          ++ [Dwf "FDwfAnalogInConfigure" [CInt 1; c_bool false; c_bool true];
              Dwf "FDwfAnalogInStatus" [CInt 1; c_bool true; OutByte 2]])
         0 0 1 (loaded B64.t)).
Proof. vm_compute. reflexivity. Qed.

(** ** Where the ramp ends *)

(** C2, as the code has it.  Let [time] be imported and [time.sleep] accept
    the delay.  In every arithmetic a rising phase returns with the output at
    its start after [2 * steps] additions of [amplitude_slope], one an
    iteration, and the falling phase that follows with that value after
    [2 * steps] subtractions of it.  In binary64, with the constants of the
    source, the step count is 100, the rising phase ends within one step of
    the start plus twice the amplitude, and the falling phase within one
    step of the start. *)
Theorem ramp_round_trip :
  (forall V (N : PyNum V) (env : environment V) (c : settings V) steps d start_time l
          (w : world V),
     imported w -> sleep_raises env (time_per_measurement c) = None ->
     exists l1 w1 l2 w2,
       rising_phase env c d start_time steps l w = Ok l1 w1
       /\ power_up l1
          = Nat.iter (Z.to_nat (steps * 2)) (fun p => add p (amplitude_slope c))
              (power_up l)
       /\ falling_phase env c d start_time steps l1 w1 = Ok l2 w2
       /\ power_up l2
          = Nat.iter (Z.to_nat (steps * 2)) (fun p => sub p (amplitude_slope c))
              (power_up l1))
  /\ rmap_steps (main_settings (V := B64.t)) = inr 100
  /\ (forall (env : environment B64.t) d start_time (w : world B64.t),
        let c := main_settings (V := B64.t) in
        imported w -> sleep_raises env (time_per_measurement c) = None ->
        exists l1 w1 l2 w2,
          rising_phase env c d start_time 100 (initial_locals c) w = Ok l1 w1
          /\ within (amplitude_slope c) (power_up l1)
               (add (add (initial_power_up c) (amplitude c)) (amplitude c)) = true
          /\ falling_phase env c d start_time 100 l1 w1 = Ok l2 w2
          /\ within (amplitude_slope c) (power_up l2) (initial_power_up c) = true).
Proof.
  split; [|split].
  - intros V N env c steps d start_time l w Hw Hnap.
    destruct (rising_phase_eq env c d start_time steps l w Hw Hnap) as (evs1 & H1).
    match type of H1 with _ = Ok ?l1 ?w1 =>
      destruct (falling_phase_eq env c d start_time steps l1 w1
                  (imported_advance _ _ _ _ _ Hw) Hnap) as (evs2 & H2)
    end.
    eexists _, _, _, _.
    split; [exact H1|]. split; [reflexivity|].
    split; [exact H2|]. reflexivity.
  - vm_compute. reflexivity.
  - intros env d start_time w c Hw Hnap.
    destruct (rising_phase_eq env c d start_time 100 (initial_locals c) w Hw Hnap)
      as (evs1 & H1).
    match type of H1 with _ = Ok ?l1 ?w1 =>
      destruct (falling_phase_eq env c d start_time 100 l1 w1
                  (imported_advance _ _ _ _ _ Hw) Hnap) as (evs2 & H2)
    end.
    eexists _, _, _, _.
    split; [exact H1|]. split; [vm_compute; reflexivity|].
    split; [exact H2|]. vm_compute. reflexivity.
Qed.

(** A ramp of three steps of 1/4 on the bench, in the namespace of the file
    with [time] imported. *)
Lemma ramp_round_trip_witness :
  exists l1 w1 l2 w2,
    rising_phase bench64 quarter_settings {| handle := 1 |} (of_int 0) 3
      (initial_locals quarter_settings) (import_time (loaded B64.t)) = Ok l1 w1
    /\ power_up l1
       = Nat.iter (Z.to_nat (3 * 2)) (fun p => add p (amplitude_slope quarter_settings))
           (power_up (initial_locals quarter_settings))
    /\ falling_phase bench64 quarter_settings {| handle := 1 |} (of_int 0) 3 l1 w1
       = Ok l2 w2
    /\ power_up l2
       = Nat.iter (Z.to_nat (3 * 2)) (fun p => sub p (amplitude_slope quarter_settings))
           (power_up l1).
Proof.
  apply (proj1 ramp_round_trip B64.t binary64 bench64 quarter_settings 3
           {| handle := 1 |} (of_int 0) (initial_locals quarter_settings)
           (import_time (loaded B64.t))).
  - vm_compute. reflexivity.
  - vm_compute. reflexivity.
Defined.

(** C2 as the specification states it fails on the constants of the source,
    in the namespace of the file with [time] imported: the rising phase ends
    near 5, five volts from start plus amplitude (-5 + 5), which is more
    than one step of 0.05. *)
Lemma ramp_round_trip_counterexample :
  let c := main_settings (V := B64.t) in
  exists l1 w1,
    rising_phase bench64 c {| handle := 1 |} (of_int 0) 100 (initial_locals c)
      (import_time (loaded B64.t)) = Ok l1 w1
    /\ within (amplitude_slope c) (power_up l1)
         (add (initial_power_up c) (amplitude c)) = false
    /\ within (amplitude_slope c) (power_up l1) (of_int 5) = true.
Proof.
  intros c.
  destruct (rising_phase_eq bench64 c {| handle := 1 |} (of_int 0) 100
              (initial_locals c) (import_time (loaded B64.t))) as (evs1 & H1).
  - vm_compute. reflexivity.
  - vm_compute. reflexivity.
  - eexists _, _. split; [exact H1|].
    split; vm_compute; reflexivity.
Qed.

(** ** Elapsed times *)

Section Elapsed.
Context {V : Type} `{PyNum V}.
Variable env : environment V.
Variable start_time : V.

Lemma map_shift_seq {A} (g : nat -> A) a n :
  map (fun k => g (a + k)%nat) (seq 0 n) = map g (seq a n).
Proof.
  revert a. induction n as [|n IH]; intros a; [reflexivity|].
  rewrite !seq_S, !map_app, IH. cbn [map]. reflexivity.
Qed.

Lemma increasing_app_seq idxs lo hi a n :
  increasing idxs -> Forall (fun i => (lo < i < hi)%nat) idxs -> (hi <= a)%nat ->
  increasing (idxs ++ seq a n).
Proof.
  intros Hinc Hall Ha p q i j Hp Hq Hpq.
  apply lookup_app_Some in Hp as [Hp | [Hlp Hp]];
    apply lookup_app_Some in Hq as [Hq | [Hlq Hq]].
  - eapply Hinc; eauto.
  - apply lookup_seq in Hq as [-> _].
    rewrite Forall_lookup in Hall. specialize (Hall _ _ Hp). cbn beta in Hall. lia.
  - apply lookup_lt_Some in Hq. lia.
  - apply lookup_seq in Hp as [-> _]. apply lookup_seq in Hq as [-> _]. lia.
Qed.

Lemma stamped_weaken lo hi hi' ts :
  stamped env start_time lo hi ts -> (hi <= hi')%nat ->
  stamped env start_time lo hi' ts.
Proof.
  intros (idxs & Hts & Hinc & Hall) Hhi. exists idxs. repeat split; try assumption.
  eapply Forall_impl; [exact Hall|]. cbn beta. intros i Hi. lia.
Qed.

Lemma stamped_phase f n lo hi l (w : world V) :
  stamped env start_time lo hi (Times l) ->
  (hi <= clock_reads w)%nat -> (lo < clock_reads w)%nat ->
  stamped env start_time lo (clock_reads w + n)
    (Times (phase_locals env start_time f n l w)).
Proof.
  intros (idxs & Hts & Hinc & Hall) Hhi Hlo.
  exists (idxs ++ seq (clock_reads w) n). split; [|split].
  - cbn [Times phase_locals]. rewrite Hts, map_app. f_equal.
    apply (map_shift_seq (fun i => sub (clock env i) start_time)).
  - eapply increasing_app_seq; eassumption.
  - apply Forall_app. split.
    + eapply Forall_impl; [exact Hall|]. cbn beta. intros i Hi. lia.
    + apply Forall_forall. intros i Hi. apply elem_of_seq in Hi. lia.
Qed.

Lemma stamped_cycle c n lo hi l (w : world V) :
  stamped env start_time lo hi (Times l) ->
  (hi <= clock_reads w)%nat -> (lo < clock_reads w)%nat ->
  stamped env start_time lo (clock_reads w + 2 * n)
    (Times (cycle_locals env c start_time n l w)).
Proof.
  intros Hl Hhi Hlo. unfold cycle_locals.
  replace (clock_reads w + 2 * n)%nat
    with (clock_reads (advance [] n (2 * n) 0 w) + n)%nat
    by (rewrite clock_reads_advance; lia).
  apply stamped_phase with (hi := (clock_reads w + n)%nat).
  - apply stamped_phase with (hi := hi); assumption.
  - rewrite clock_reads_advance. lia.
  - rewrite clock_reads_advance. lia.
Qed.

Lemma stamped_sweep c n k lo hi l (w : world V) :
  stamped env start_time lo hi (Times l) ->
  (hi <= clock_reads w)%nat -> (lo < clock_reads w)%nat ->
  stamped env start_time lo (clock_reads w + k * (2 * n + 1))
    (Times (sweep_locals env c start_time n k l w)).
Proof.
  intros Hl Hhi Hlo. induction k as [|k IH]; cbn [sweep_locals].
  - eapply stamped_weaken; [exact Hl | lia].
  - eapply stamped_weaken.
    + eapply stamped_cycle; [exact IH | |]; rewrite clock_reads_advance; lia.
    + rewrite clock_reads_advance. lia.
Qed.

(** What the stamps give when the elapsed time is steady. *)
Lemma stamped_steady lo hi ts :
  start_time = clock env lo ->
  stamped env start_time lo hi ts -> steady env lo hi ->
  (forall p q x y, ts !! p = Some x -> ts !! q = Some y -> (p <= q)%nat ->
                   le x y = true)
  /\ (forall p x, ts !! p = Some x -> le (of_int 0) x = true).
Proof.
  intros -> (idxs & -> & Hinc & Hall) Hsteady.
  rewrite Forall_lookup in Hall. split.
  - intros p q x y Hp Hq Hpq.
    rewrite list_lookup_fmap in Hp, Hq.
    destruct (idxs !! p) as [i|] eqn:Hi; [|discriminate].
    destruct (idxs !! q) as [j|] eqn:Hj; [|discriminate].
    injection Hp as <-. injection Hq as <-.
    pose proof (Hall _ _ Hi) as Hbi. pose proof (Hall _ _ Hj) as Hbj.
    cbn beta in Hbi, Hbj.
    apply (Hsteady i j); [lia | | lia].
    destruct (decide (p = q)) as [->|Hne].
    + rewrite Hi in Hj. injection Hj as ->. lia.
    + specialize (Hinc p q i j Hi Hj ltac:(lia)). lia.
  - intros p x Hp. rewrite list_lookup_fmap in Hp.
    destruct (idxs !! p) as [i|] eqn:Hi; [|discriminate].
    injection Hp as <-. pose proof (Hall _ _ Hi) as Hbi. cbn beta in Hbi.
    apply (Hsteady i i); lia.
Qed.

End Elapsed.

Lemma steadyb_sound `{PyNum V} (env : environment V) lo n :
  steadyb env lo n = true -> steady env lo (lo + n + 1).
Proof.
  unfold steadyb. rewrite List.forallb_forall. intros Hb j k Hj Hjk Hk.
  specialize (Hb (j - lo - 1)%nat). rewrite List.in_seq in Hb.
  specialize (Hb ltac:(lia)).
  replace (lo + 1 + (j - lo - 1))%nat with j in Hb by lia.
  apply andb_prop in Hb as [H0 Hrest]. split; [|exact H0].
  rewrite List.forallb_forall in Hrest.
  specialize (Hrest (k - j)%nat). rewrite List.in_seq in Hrest.
  specialize (Hrest ltac:(lia)).
  replace (j + (k - j))%nat with k in Hrest by lia. exact Hrest.
Qed.

(** C5, as the code has it.  Let [time] be imported and [time.sleep] accept
    the two delays.  Then a sweep whose step count computes runs to its end,
    and its [Times] are, in the order of the iterations, later and later
    readings of the clock, each minus the reading taken at line 301.  If,
    over the readings of the sweep, the elapsed time the clock shows never
    decreases from a reading to a later one and is never negative, the list
    never decreases and none of its entries is negative. *)
Theorem elapsed_times_monotone :
  forall V (N : PyNum V) (env : environment V) (c : settings V) steps (w : world V),
    imported w -> sleeps env c ->
    rmap_steps c = inr steps ->
    exists l w',
      main env c w = Ok l w'
      /\ clock_reads w' = (clock_reads w + readings c steps)%nat
      /\ (exists idxs,
            Times l = map (elapsed env (clock_reads w)) idxs
            /\ increasing idxs
            /\ Forall (fun i => (clock_reads w < i < clock_reads w')%nat) idxs)
      /\ (steady env (clock_reads w) (clock_reads w') ->
          (forall p q x y, Times l !! p = Some x -> Times l !! q = Some y ->
                           (p <= q)%nat -> le x y = true)
          /\ (forall p x, Times l !! p = Some x -> le (of_int 0) x = true)).
Proof.
  intros V N env c steps w Hw Hsleeps Hsteps.
  destruct (main_eq env c steps w Hw Hsleeps Hsteps) as (evs & Hmain).
  eexists _, _. split; [exact Hmain|].
  set (start_time := clock env (clock_reads w)) in *.
  assert (Hst : stamped env start_time (clock_reads w)
                  (clock_reads w + readings c steps)
                  (Times (sweep_locals env c start_time (Z.to_nat (steps * 2))
                            (Z.to_nat (cycles c)) (initial_locals c)
                            (advance [] 1 0 0 w)))).
  { unfold readings. rewrite Nat.add_assoc.
    change (clock_reads w + 1)%nat with (clock_reads (advance [] 1 0 0 w)).
    apply stamped_sweep with (hi := 0%nat).
    - exists []. repeat split.
      + intros a b i j Ha. discriminate Ha.
      + constructor.
    - lia.
    - rewrite clock_reads_advance. lia. }
  rewrite clock_reads_advance. fold (readings c steps).
  split; [reflexivity|]. split; [exact Hst|].
  intros Hsteady. eapply stamped_steady; [reflexivity | exact Hst | exact Hsteady].
Qed.

(** A ramp of three steps of 1/4 on the bench, whose clock ticks once a
    reading: the elapsed time is steady over its fourteen readings, and the
    twelve entries of [Times] never decrease. *)
Lemma elapsed_times_monotone_witness :
  exists l w',
    main bench64 quarter_settings (import_time (loaded B64.t)) = Ok l w'
    /\ length (Times l) = 12%nat
    /\ (forall p q x y, Times l !! p = Some x -> Times l !! q = Some y ->
                        (p <= q)%nat -> le x y = true)
    /\ (forall p x, Times l !! p = Some x -> le (of_int 0) x = true).
Proof.
  destruct (elapsed_times_monotone B64.t binary64 bench64 quarter_settings 3
              (import_time (loaded B64.t)))
    as (l & w' & Hmain & Hreads & (idxs & Htimes & Hinc & Hall) & Hsteady).
  - vm_compute. reflexivity.
  - split; vm_compute; reflexivity.
  - vm_compute. reflexivity.
  - exists l, w'. split; [exact Hmain|]. split.
    + assert (Hrun : main bench64 quarter_settings (import_time (loaded B64.t))
                     = Ok l w') by exact Hmain.
      vm_compute in Hrun. injection Hrun as <- _. reflexivity.
    + apply Hsteady. rewrite Hreads.
      apply (steadyb_sound bench64 0 13). vm_compute. reflexivity.
Defined.

(** C5 as the specification states it fails when the clock is set back
    during the sweep: the same ramp on a bench whose clock loses ten ticks
    at its fourth reading records [Times] that decrease and are negative. *)
Lemma elapsed_times_monotone_counterexample :
  exists l w',
    main rewound64 quarter_settings (import_time (loaded B64.t)) = Ok l w'
    /\ take 3 (Times l) = [of_int 1; of_int 2; of_int (-7)]
    /\ nondecreasing (Times l) = false
    /\ forallb (le (of_int 0)) (Times l) = false.
Proof.
  eexists _, _. split; [vm_compute; reflexivity|].
  repeat split; vm_compute; reflexivity.
Qed.

(** On the binary64 run of the source's constants, by evaluation: the 400
    elapsed times never decrease and none is negative. *)
Lemma elapsed_times_binary64 :
  exists l w',
    main bench64 main_settings (import_time (loaded B64.t)) = Ok l w'
    /\ length (Times l) = 400%nat
    /\ nondecreasing (Times l) = true
    /\ forallb (le (of_int 0)) (Times l) = true.
Proof.
  eexists _, _. split; [vm_compute; reflexivity|].
  repeat split; vm_compute; reflexivity.
Qed.

(** ** [record_oscilloscope] in a namespace that binds [data] *)

Section Bound.
Context {V : Type} `{PyNum V}.

(** Were [data] bound to an object with a [buffer_size] and a
    [sampling_frequency], the function would return what its docstring
    says: the acquired buffer, and the time [i / sampling_frequency] for each
    index [i] of it. *)
Lemma record_oscilloscope_bound (env : environment V) fuel d ch k w kind attrs n f :
  globals w !! "data" = Some (PyObject kind attrs) ->
  assoc "buffer_size" attrs = Some (AInt n) -> 0 <= n ->
  assoc "sampling_frequency" attrs = Some (AFloat f) ->
  (forall m, exists t, truediv (of_int m) f = inr t) ->
  done_at env (polls w) k -> (k < fuel)%nat ->
  exists time w',
    record_oscilloscope env fuel d ch w
    = Ok (map (acquired env) (seq 0 (Z.to_nat n)), time) w'
    /\ length time = Z.to_nat n
    /\ forall i t, time !! i = Some t -> truediv (of_int (Z.of_nat i)) f = inr t.
Proof.
  intros Hd Hsize Hn Hfreq Hdiv Hdone Hfuel. unfold record_oscilloscope. run.
  match goal with |- context [bind (poll_until_done env ?h fuel) _ ?w1] =>
    destruct (poll_until_done_eq env h k fuel w1) as (evs & Hrun)
  end; [rewrite polls_advance, Nat.add_0_r; exact Hdone | exact Hfuel |].
  erewrite bind_ok by exact Hrun. tidy.
  erewrite bind_ok by (apply load_global_bound; exact Hd).
  erewrite bind_ok by (unfold getattr; rewrite Hsize; reflexivity).
  erewrite bind_ok by reflexivity.
  case_decide; [lia|].
  erewrite bind_ok by reflexivity.
  erewrite bind_ok by (apply load_global_bound; exact Hd).
  erewrite bind_ok by (unfold getattr; rewrite Hsize; reflexivity).
  erewrite bind_ok by reflexivity.
  run.
  erewrite bind_ok by (apply load_global_bound; exact Hd).
  erewrite bind_ok by (unfold getattr; rewrite Hsize; reflexivity).
  erewrite bind_ok by reflexivity.
  match goal with |- context [bind (for_range 0 n ?body []) _ ?w1] =>
    destruct (for_range_rule
                (fun j (time : list V) w' =>
                   w' = w1 /\ length time = j
                   /\ forall i t, time !! i = Some t ->
                                  truediv (of_int (Z.of_nat i)) f = inr t)
                body 0 n) with (s := @nil V) (w := w1)
      as (time & w' & Hloop & -> & Hlen & Htime)
  end.
  - intros j time w' _ (-> & Hlen & Htime).
    destruct (Hdiv (0 + Z.of_nat j)) as (t & Ht).
    erewrite bind_ok by (apply load_global_bound; exact Hd).
    erewrite bind_ok by (unfold getattr; rewrite Hfreq; reflexivity).
    erewrite bind_ok by reflexivity.
    erewrite bind_ok by (unfold lift; rewrite Ht; reflexivity).
    eexists _, _. split; [reflexivity|]. split; [reflexivity|]. split.
    + rewrite length_app. cbn [length]. lia.
    + intros i t' Hi. apply lookup_app_Some in Hi as [Hi | [Hge Hi]].
      * apply Htime. exact Hi.
      * destruct (i - length time)%nat as [|i'] eqn:Hi'; [|discriminate Hi].
        injection Hi as <-. rewrite <- Ht. do 2 f_equal. lia.
  - split; [reflexivity|]. split; [reflexivity|]. intros i t Hi. discriminate Hi.
  - erewrite bind_ok by exact Hloop.
    eexists _, _. split; [reflexivity|].
    rewrite Z.sub_0_r in Hlen. split; [exact Hlen | exact Htime].
Qed.

End Bound.

(** * Further properties *)

(** ** [record_oscilloscope] *)

Section Record.
Context {V : Type} `{PyNum V}.

(** The polling loop with no done status in sight uses all its fuel. *)
Lemma poll_until_done_timeout (env : environment V) h fuel :
  forall w,
    (forall j, (j < fuel)%nat -> status env (polls w + j) <> DwfStateDone env) ->
    exists evs, poll_until_done env h fuel w = Timeout (advance evs 0 0 fuel w).
Proof.
  induction fuel as [|fuel IH]; intros w Hnever; cbn [poll_until_done].
  - exists []. rewrite advance_nil. reflexivity.
  - run. case_decide as Heq.
    + exfalso. apply (Hnever 0%nat); [lia|]. rewrite Nat.add_0_r. exact Heq.
    + match goal with |- context [poll_until_done env h fuel ?w1] =>
        destruct (IH w1) as (evs & Hrun)
      end.
      * intros j Hj. rewrite polls_advance.
        replace (polls w + 1 + j)%nat with (polls w + S j)%nat by lia.
        apply Hnever. lia.
      * rewrite Hrun. tidy. eexists. reflexivity.
Qed.

End Record.

(** X1.  In a namespace where [data] has a [buffer_size] [n >= 0] and a
    [sampling_frequency] [f] that divides, on a device that first reports
    done at its poll number [k]: [record_oscilloscope] polls exactly [k + 1]
    times, reads neither the clock nor single samples, leaves the globals
    alone, and returns the [n] acquired cells with a time list of the same
    length whose entry [i] is [i / f]. *)
Theorem record_oscilloscope_returns :
  forall V (N : PyNum V) (env : environment V) fuel d ch k (w : world V)
         kind attrs n f,
    globals w !! "data" = Some (PyObject kind attrs) ->
    assoc "buffer_size" attrs = Some (AInt n) -> 0 <= n ->
    assoc "sampling_frequency" attrs = Some (AFloat f) ->
    (forall m, exists t, truediv (of_int m) f = inr t) ->
    done_at env (polls w) k -> (k < fuel)%nat ->
    exists buffer time evs,
      record_oscilloscope env fuel d ch w
      = Ok (buffer, time) (advance evs 0 0 (S k) w)
      /\ buffer = map (acquired env) (seq 0 (Z.to_nat n))
      /\ length buffer = Z.to_nat n
      /\ length time = Z.to_nat n
      /\ forall i t, time !! i = Some t -> truediv (of_int (Z.of_nat i)) f = inr t.
Proof.
  intros V N env fuel d ch k w kind attrs n f Hd Hsize Hn Hfreq Hdiv Hdone Hfuel.
  unfold record_oscilloscope. run.
  match goal with |- context [bind (poll_until_done env ?h fuel) _ ?w1] =>
    destruct (poll_until_done_eq env h k fuel w1) as (evs & Hrun)
  end; [rewrite polls_advance, Nat.add_0_r; exact Hdone | exact Hfuel |].
  erewrite bind_ok by exact Hrun. tidy.
  erewrite bind_ok by (apply load_global_bound; exact Hd).
  erewrite bind_ok by (unfold getattr; rewrite Hsize; reflexivity).
  erewrite bind_ok by reflexivity.
  case_decide; [lia|].
  erewrite bind_ok by reflexivity.
  erewrite bind_ok by (apply load_global_bound; exact Hd).
  erewrite bind_ok by (unfold getattr; rewrite Hsize; reflexivity).
  erewrite bind_ok by reflexivity.
  run.
  erewrite bind_ok by (apply load_global_bound; exact Hd).
  erewrite bind_ok by (unfold getattr; rewrite Hsize; reflexivity).
  erewrite bind_ok by reflexivity.
  match goal with |- context [bind (for_range 0 n ?body []) _ ?w1] =>
    destruct (for_range_rule
                (fun j (time : list V) w' =>
                   w' = w1 /\ length time = j
                   /\ forall i t, time !! i = Some t ->
                                  truediv (of_int (Z.of_nat i)) f = inr t)
                body 0 n) with (s := @nil V) (w := w1)
      as (time & w' & Hloop & -> & Hlen & Htime)
  end.
  - intros j time w' _ (-> & Hlen & Htime).
    destruct (Hdiv (0 + Z.of_nat j)) as (t & Ht).
    erewrite bind_ok by (apply load_global_bound; exact Hd).
    erewrite bind_ok by (unfold getattr; rewrite Hfreq; reflexivity).
    erewrite bind_ok by reflexivity.
    erewrite bind_ok by (unfold lift; rewrite Ht; reflexivity).
    eexists _, _. split; [reflexivity|]. split; [reflexivity|]. split.
    + rewrite length_app. cbn [length]. lia.
    + intros i t' Hi. apply lookup_app_Some in Hi as [Hi | [Hge Hi]].
      * apply Htime. exact Hi.
      * destruct (i - length time)%nat as [|i'] eqn:Hi'; [|discriminate Hi].
        injection Hi as <-. rewrite <- Ht. do 2 f_equal. lia.
  - split; [reflexivity|]. split; [reflexivity|]. intros i t Hi. discriminate Hi.
  - erewrite bind_ok by exact Hloop.
    eexists _, _, _. split; [reflexivity|].
    rewrite Z.sub_0_r in Hlen. rewrite length_map, length_seq.
    repeat split; [exact Hlen | exact Htime].
Qed.

Lemma record_oscilloscope_returns_witness :
  exists buffer time evs,
    record_oscilloscope bench64 1 {| handle := 1 |} 1 configured
    = Ok (buffer, time) (advance evs 0 0 1 configured)
    /\ buffer = map (acquired bench64) (seq 0 (Z.to_nat 3))
    /\ length buffer = Z.to_nat 3
    /\ length time = Z.to_nat 3
    /\ forall i t, time !! i = Some t
                   -> truediv (of_int (Z.of_nat i)) (of_int 2) = inr t.
Proof.
  apply (record_oscilloscope_returns B64.t binary64 bench64 1 {| handle := 1 |} 1 0
           configured "class"
           [("buffer_size", AInt 3); ("sampling_frequency", AFloat (of_int 2))]).
  - vm_compute. reflexivity.
  - reflexivity.
  - lia.
  - reflexivity.
  - intros m. eexists. reflexivity.
  - split; [reflexivity | intros j Hj; lia].
  - lia.
Defined.

(** X2.  The loop of lines 102-109 has no bound of its own: on a device that
    never reports done, [record_oscilloscope] is still polling after any
    number of rounds, whatever the namespace, and has made exactly that many
    polls. *)
Theorem record_oscilloscope_never_done :
  forall V (N : PyNum V) (env : environment V) d ch (w : world V),
    (forall j, status env (polls w + j) <> DwfStateDone env) ->
    forall fuel,
      exists w', record_oscilloscope env fuel d ch w = Timeout w'
                 /\ polls w' = (polls w + fuel)%nat.
Proof.
  intros V N env d ch w Hnever fuel. unfold record_oscilloscope. run.
  match goal with |- context [bind (poll_until_done env ?h fuel) _ ?w1] =>
    destruct (poll_until_done_timeout env h fuel w1) as (evs & Hrun)
  end.
  - intros j _. rewrite polls_advance, Nat.add_0_r. apply Hnever.
  - unfold bind at 1. rewrite Hrun. tidy. eexists. split; [reflexivity|].
    rewrite polls_advance. reflexivity.
Qed.

Lemma record_oscilloscope_never_done_witness :
  exists w', record_oscilloscope busy64 5 {| handle := 1 |} 1 configured = Timeout w'
             /\ polls w' = (polls configured + 5)%nat.
Proof.
  apply (record_oscilloscope_never_done B64.t binary64 busy64 {| handle := 1 |} 1
           configured).
  intros j. cbn [status busy64 DwfStateDone]. discriminate.
Defined.

(** X3.  With a [sampling_frequency] of zero and a buffer that is not empty,
    [record_oscilloscope] raises the exception of the division [0 / f], and
    only after it has polled to done and fetched the buffer from the driver:
    the call to [FDwfAnalogInStatusData] is the last of the trace. *)
Theorem record_oscilloscope_zero_frequency :
  forall V (N : PyNum V) (env : environment V) fuel d ch k (w : world V)
         kind attrs n f e,
    globals w !! "data" = Some (PyObject kind attrs) ->
    assoc "buffer_size" attrs = Some (AInt n) -> 0 < n ->
    assoc "sampling_frequency" attrs = Some (AFloat f) ->
    truediv (of_int 0) f = inl e ->
    done_at env (polls w) k -> (k < fuel)%nat ->
    exists evs,
      record_oscilloscope env fuel d ch w
      = Raise e
          (advance
             (evs ++ [Dwf "FDwfAnalogInStatusData"
                        [CInt (handle d); c_int (ch - 1);
                         CArray (map (acquired env) (seq 0 (Z.to_nat n))); c_int n]])
             0 0 (S k) w).
Proof.
  intros V N env fuel d ch k w kind attrs n f e Hd Hsize Hn Hfreq Hdiv Hdone Hfuel.
  unfold record_oscilloscope. run.
  match goal with |- context [bind (poll_until_done env ?h fuel) _ ?w1] =>
    destruct (poll_until_done_eq env h k fuel w1) as (evs & Hrun)
  end; [rewrite polls_advance, Nat.add_0_r; exact Hdone | exact Hfuel |].
  erewrite bind_ok by exact Hrun. tidy.
  erewrite bind_ok by (apply load_global_bound; exact Hd).
  erewrite bind_ok by (unfold getattr; rewrite Hsize; reflexivity).
  erewrite bind_ok by reflexivity.
  case_decide; [lia|].
  erewrite bind_ok by reflexivity.
  erewrite bind_ok by (apply load_global_bound; exact Hd).
  erewrite bind_ok by (unfold getattr; rewrite Hsize; reflexivity).
  erewrite bind_ok by reflexivity.
  run.
  erewrite bind_ok by (apply load_global_bound; exact Hd).
  erewrite bind_ok by (unfold getattr; rewrite Hsize; reflexivity).
  erewrite bind_ok by reflexivity.
  exists (Dwf "FDwfAnalogInConfigure" [CInt (handle d); c_bool false; c_bool true]
          :: evs).
  apply bind_raise. unfold for_range.
  destruct (Z.to_nat (n - 0)) as [|m] eqn:Hm; [lia|].
  cbn [for_range_from]. apply bind_raise.
  erewrite bind_ok by (apply load_global_bound; exact Hd).
  erewrite bind_ok by (unfold getattr; rewrite Hfreq; reflexivity).
  erewrite bind_ok by reflexivity.
  apply bind_raise. unfold lift. rewrite Hdiv. reflexivity.
Qed.

Lemma record_oscilloscope_zero_frequency_witness :
  exists evs,
    record_oscilloscope bench64 1 {| handle := 1 |} 1 unclocked
    = Raise ZeroDivisionError
        (advance
           (evs ++ [Dwf "FDwfAnalogInStatusData"
                      [CInt 1; c_int (1 - 1);
                       CArray (map (acquired bench64) (seq 0 (Z.to_nat 3))); c_int 3]])
           0 0 1 unclocked).
Proof.
  apply (record_oscilloscope_zero_frequency B64.t binary64 bench64 1 {| handle := 1 |}
           1 0 unclocked "class"
           [("buffer_size", AInt 3); ("sampling_frequency", AFloat (of_int 0))] 3
           (of_int 0)).
  - vm_compute. reflexivity.
  - reflexivity.
  - lia.
  - reflexivity.
  - reflexivity.
  - split; [reflexivity | intros j Hj; lia].
  - lia.
Defined.

(** X4.  With a [buffer_size] of zero the comprehension of line 117 has
    nothing to divide: [record_oscilloscope] returns two empty lists, whether
    or not [data] has a [sampling_frequency] at all. *)
Theorem record_oscilloscope_empty_buffer :
  forall V (N : PyNum V) (env : environment V) fuel d ch k (w : world V) kind attrs,
    globals w !! "data" = Some (PyObject kind attrs) ->
    assoc "buffer_size" attrs = Some (AInt 0) ->
    done_at env (polls w) k -> (k < fuel)%nat ->
    exists evs,
      record_oscilloscope env fuel d ch w = Ok ([], []) (advance evs 0 0 (S k) w).
Proof.
  intros V N env fuel d ch k w kind attrs Hd Hsize Hdone Hfuel.
  unfold record_oscilloscope. run.
  match goal with |- context [bind (poll_until_done env ?h fuel) _ ?w1] =>
    destruct (poll_until_done_eq env h k fuel w1) as (evs & Hrun)
  end; [rewrite polls_advance, Nat.add_0_r; exact Hdone | exact Hfuel |].
  erewrite bind_ok by exact Hrun. tidy.
  erewrite bind_ok by (apply load_global_bound; exact Hd).
  erewrite bind_ok by (unfold getattr; rewrite Hsize; reflexivity).
  erewrite bind_ok by reflexivity.
  case_decide; [lia|].
  erewrite bind_ok by reflexivity.
  erewrite bind_ok by (apply load_global_bound; exact Hd).
  erewrite bind_ok by (unfold getattr; rewrite Hsize; reflexivity).
  erewrite bind_ok by reflexivity.
  run.
  erewrite bind_ok by (apply load_global_bound; exact Hd).
  erewrite bind_ok by (unfold getattr; rewrite Hsize; reflexivity).
  erewrite bind_ok by reflexivity.
  erewrite bind_ok by reflexivity.
  eexists. reflexivity.
Qed.

Lemma record_oscilloscope_empty_buffer_witness :
  exists evs,
    record_oscilloscope bench64 1 {| handle := 1 |} 1 unsized
    = Ok ([], []) (advance evs 0 0 1 unsized).
Proof.
  apply (record_oscilloscope_empty_buffer B64.t binary64 bench64 1 {| handle := 1 |} 1 0
           unsized "class" [("buffer_size", AInt 0)]).
  - vm_compute. reflexivity.
  - reflexivity.
  - split; [reflexivity | intros j Hj; lia].
  - lia.
Defined.

(** ** [generate_function] for every function kind *)

Section Generate.
Context {V : Type} `{PyNum V}.

Lemma generate_function_eq d channel function
    (offset frequency amplitude symmetry wait run_time : V) repeat (data : list V)
    (w : world V) :
  generate_function d channel function offset frequency amplitude symmetry wait
    run_time repeat data w
  = Ok tt (advance (generate_events d channel function offset frequency amplitude
                      symmetry wait run_time repeat data) 0 0 0 w).
Proof.
  unfold generate_function, generate_events. do 2 run.
  destruct (decide (function = custom)) as [_|_].
  - rewrite Nat2Z.id.
    erewrite bind_ok.
    2:{ erewrite bind_ok by apply fill_buffer_eq. apply dwf_eq. }
    tidy. do 7 run. rewrite dwf_eq; tidy. reflexivity.
  - erewrite bind_ok by reflexivity. do 7 run. rewrite dwf_eq; tidy. reflexivity.
Qed.

End Generate.

(** X6.  [generate_function] returns for every function kind and every
    data list.  It adds one call to [FDwfAnalogOutNodeDataSet] when the kind
    is [custom] and none otherwise, in which case the outcome does not depend
    on [data]; its last call is the start command
    [FDwfAnalogOutConfigure(handle, channel, True)]. *)
Theorem generate_function_uploads :
  forall V (N : PyNum V) d channel (fn : function)
         (offset frequency amplitude symmetry wait run_time : V) repeat
         (data : list V) (w : world V),
    exists w',
      generate_function d channel fn offset frequency amplitude symmetry
        wait run_time repeat data w = Ok tt w'
      /\ count_calls "FDwfAnalogOutNodeDataSet" (trace w')
         = (count_calls "FDwfAnalogOutNodeDataSet" (trace w)
            + if decide (fn = custom) then 1 else 0)%nat
      /\ last (trace w')
         = Some (Dwf "FDwfAnalogOutConfigure"
                   [CInt (handle d); c_int (channel - 1); c_bool true])
      /\ (fn <> custom ->
          generate_function d channel fn offset frequency amplitude symmetry
            wait run_time repeat data w
          = generate_function d channel fn offset frequency amplitude symmetry
              wait run_time repeat [] w).
Proof.
  intros. eexists. split; [apply generate_function_eq|].
  rewrite trace_advance. split; [|split].
  - rewrite count_calls_app. f_equal. unfold generate_events.
    destruct (decide (fn = custom)); reflexivity.
  - unfold generate_events.
    destruct (decide (fn = custom)); rewrite !last_app; reflexivity.
  - intros Hne. rewrite !generate_function_eq. unfold generate_events.
    destruct (decide (fn = custom)); [contradiction | reflexivity].
Qed.

(** ** More on the supply voltages, in binary64 *)

Ltac clamp_twice x :=
  unfold py_max, py_min, lt, gt; cbn [cmp binary64];
  destruct x as [s|s| |s m e]; try destruct s;
  split_compare; cbn [SFcompare CompOpp];
  rewrite ?Z.compare_refl, ?Pos.compare_cont_refl;
  try reflexivity; try congruence.

Lemma clamp_positive_fixed (x : B64.t) :
  let r := py_max (of_int 0) (py_min (of_int 5) x) in
  py_max (of_int 0) (py_min (of_int 5) r) = r.
Proof.
  destruct b64_literals as (-> & -> & _). cbv zeta. clamp_twice x.
Qed.

Lemma clamp_negative_fixed (x : B64.t) :
  let r := py_max (of_int (-5)) (py_min (of_int 0) x) in
  py_max (of_int (-5)) (py_min (of_int 0) r) = r.
Proof.
  destruct b64_literals as (-> & _ & -> & _). cbv zeta. clamp_twice x.
Qed.

(** X7.  The voltages the power-supply function applies are fixed points of
    its clamping: a second call given the applied voltages applies exactly
    the same two values, whatever the switches. *)
Theorem supplies_reapplied :
  forall d master_state positive_state negative_state
         (positive_voltage negative_voltage : B64.t) w,
    exists vp vn,
      _switch_variable_ d master_state positive_state negative_state
        positive_voltage negative_voltage w
      = Ok tt (advance (supply_events d master_state positive_state
                          negative_state vp vn) 0 0 0 w)
      /\ forall master_state' positive_state' negative_state' w',
           _switch_variable_ d master_state' positive_state' negative_state' vp vn w'
           = Ok tt (advance (supply_events d master_state' positive_state'
                               negative_state' vp vn) 0 0 0 w').
Proof.
  intros. eexists _, _. split; [apply switch_variable_eq|].
  intros. rewrite switch_variable_eq.
  rewrite (clamp_positive_fixed positive_voltage).
  rewrite (clamp_negative_fixed negative_voltage). reflexivity.
Qed.

(** X8.  Inputs that are not finite are clamped like the others, and a nan,
    which compares false with everything, is taken for the upper bound of
    each rail: nan and +infinity apply 5 V and 0 V, -infinity applies 0 V
    and -5 V. *)
Theorem supplies_not_finite :
  forall d master_state positive_state negative_state (w : world B64.t),
    let applies pv nv vp vn :=
      _switch_variable_ d master_state positive_state negative_state pv nv w
      = Ok tt (advance (supply_events d master_state positive_state
                          negative_state vp vn) 0 0 0 w) in
    applies S754_nan S754_nan (of_int 5) (of_int 0)
    /\ applies (S754_infinity false) (S754_infinity false) (of_int 5) (of_int 0)
    /\ applies (S754_infinity true) (S754_infinity true) (of_int 0) (of_int (-5)).
Proof.
  intros. unfold applies. rewrite !switch_variable_eq.
  repeat split; do 2 f_equal; f_equal; vm_compute; reflexivity.
Qed.

(** ** The rows of line 407 *)

Section Rows.
Context {V : Type} `{PyNum V}.

(** A [for] loop whose body raises at round [m], after [m] rounds that keep
    an invariant, raises. *)
Lemma for_range_from_raises {S} (P : nat -> S -> world V -> Prop)
    (body : Z -> S -> M V S) (e : exn) (m : nat) :
  forall n start,
  (m < n)%nat ->
  (forall k s w, (k < m)%nat -> P k s w ->
     exists s' w', body (start + Z.of_nat k) s w = Ok s' w' /\ P (Datatypes.S k) s' w') ->
  (forall s w, P m s w -> exists w', body (start + Z.of_nat m) s w = Raise e w') ->
  forall s w, P 0%nat s w ->
  exists w', for_range_from start n body s w = Raise e w'.
Proof.
  revert P. induction m as [|m IH]; intros P n start Hmn Hbody Hraise s w HP;
    (destruct n as [|n]; [lia|]); cbn [for_range_from].
  - destruct (Hraise s w HP) as (w' & Hr). rewrite Z.add_0_r in Hr.
    exists w'. apply bind_raise. exact Hr.
  - destruct (Hbody 0%nat s w ltac:(lia) HP) as (s1 & w1 & Hb & HP1).
    rewrite Z.add_0_r in Hb. erewrite bind_ok by exact Hb.
    apply (IH (fun k => P (Datatypes.S k))); [lia | | | exact HP1].
    + intros k s' w' Hk HPk.
      destruct (Hbody (Datatypes.S k) s' w' ltac:(lia) HPk) as (s3 & w3 & Hb3 & HP3).
      exists s3, w3. split; [|exact HP3]. rewrite <- Hb3. f_equal. lia.
    + intros s' w' HPm. destruct (Hraise s' w' HPm) as (w3 & Hr).
      exists w3. rewrite <- Hr. f_equal. lia.
Qed.

End Rows.

(** Line 407 pairs up the entries of the three lists. *)
Lemma rows_content :
  forall V (N : PyNum V) (l : locals V) (w : world V),
    (length (Times l) <= length (ramp_measurements l))%nat ->
    (length (Times l) <= length (opamp_measurements l))%nat ->
    exists data,
      rows l w = Ok data w
      /\ length data = length (Times l)
      /\ forall i t r o,
           data !! i = Some (t, r, o)
           <-> Times l !! i = Some t /\ ramp_measurements l !! i = Some r
               /\ opamp_measurements l !! i = Some o.
Proof.
  intros V N l w Hr Ho. unfold rows.
  destruct (for_range_rule
              (fun k (data : list (V * V * V)) w' =>
                 w' = w /\ length data = k
                 /\ forall i t r o,
                      data !! i = Some (t, r, o)
                      <-> (i < k)%nat /\ Times l !! i = Some t
                          /\ ramp_measurements l !! i = Some r
                          /\ opamp_measurements l !! i = Some o)
              (fun i data =>
                 match Times l !! Z.to_nat i, ramp_measurements l !! Z.to_nat i,
                       opamp_measurements l !! Z.to_nat i with
                 | Some t, Some r, Some o => ret (data ++ [(t, r, o)])
                 | _, _, _ => raise IndexError
                 end) 0 (Z.of_nat (length (Times l))))
    with (s := @nil (V * V * V)) (w := w) as (data & w' & Hrun & -> & Hlen & Hrows).
  - intros k data w' Hk (-> & Hd & Hrows).
    rewrite Z.sub_0_r, Nat2Z.id in Hk. rewrite Z.add_0_l, Nat2Z.id.
    destruct (lookup_lt_is_Some_2 (Times l) k) as [t Ht]; [lia|].
    destruct (lookup_lt_is_Some_2 (ramp_measurements l) k) as [r Hrk]; [lia|].
    destruct (lookup_lt_is_Some_2 (opamp_measurements l) k) as [o Hok]; [lia|].
    rewrite Ht, Hrk, Hok.
    eexists _, _. split; [reflexivity|]. split; [reflexivity|]. split.
    + rewrite length_app. cbn [length]. lia.
    + intros i t' r' o'. rewrite lookup_app_Some, Hrows, Hd. split.
      * intros [(Hi & Hall) | (Hi & Hlast)].
        -- split; [lia | exact Hall].
        -- destruct (i - k)%nat as [|j] eqn:Hj; [|discriminate Hlast].
           injection Hlast as <- <- <-. assert (i = k) as -> by lia.
           split; [lia|]. repeat split; assumption.
      * intros (Hi & Ht' & Hr' & Ho').
        destruct (decide (i < k)%nat) as [Hlt|Hge].
        -- left. split; [exact Hlt|]. repeat split; assumption.
        -- right. assert (i = k) as -> by lia. split; [lia|].
           rewrite Nat.sub_diag. cbn [lookup list_lookup].
           congruence.
  - split; [reflexivity|]. split; [reflexivity|].
    intros i t r o. split; [intros Hi; discriminate Hi | intros (Hi & _); lia].
  - exists data. rewrite Z.sub_0_r, Nat2Z.id in Hlen, Hrows.
    split; [exact Hrun|]. split; [exact Hlen|].
    intros i t r o. rewrite Hrows. split; [intros (_ & Hall); exact Hall|].
    intros (Ht & Hrest). split; [|split; assumption].
    apply lookup_lt_Some in Ht. exact Ht.
Qed.

(** X9.  When [ramp_measurements] and [opamp_measurements] are at least as
    long as [Times], line 407 returns one row per entry of [Times], row [i]
    being entry [i] of each of the three lists, and changes nothing
    else. *)
Theorem rows_zip :
  forall V (N : PyNum V) (l : locals V) (w : world V),
    (length (Times l) <= length (ramp_measurements l))%nat ->
    (length (Times l) <= length (opamp_measurements l))%nat ->
    exists data,
      rows l w = Ok data w
      /\ length data = length (Times l)
      /\ forall i t r o,
           data !! i = Some (t, r, o)
           <-> Times l !! i = Some t /\ ramp_measurements l !! i = Some r
               /\ opamp_measurements l !! i = Some o.
Proof. exact rows_content. Qed.

Lemma rows_zip_witness :
  exists data,
    rows {| ramp_measurements := [of_int 1; of_int 2];
            opamp_measurements := [of_int 3; of_int 4; of_int 5];
            Times := [of_int 6; of_int 7]; power_up := of_int 0 |} (loaded B64.t)
    = Ok data (loaded B64.t)
    /\ length data = 2%nat
    /\ forall i t r o,
         data !! i = Some (t, r, o)
         <-> [of_int 6; of_int 7] !! i = Some t /\ [of_int 1; of_int 2] !! i = Some r
             /\ [of_int 3; of_int 4; of_int 5] !! i = Some o.
Proof.
  apply (rows_zip B64.t binary64
           {| ramp_measurements := [of_int 1; of_int 2];
              opamp_measurements := [of_int 3; of_int 4; of_int 5];
              Times := [of_int 6; of_int 7]; power_up := of_int 0 |} (loaded B64.t)).
  - cbn. lia.
  - cbn. lia.
Defined.

(** X10.  When one of the two measurement lists is shorter than [Times],
    line 407 raises [IndexError]. *)
Theorem rows_short :
  forall V (N : PyNum V) (l : locals V) (w : world V),
    (length (ramp_measurements l) < length (Times l))%nat
    \/ (length (opamp_measurements l) < length (Times l))%nat ->
    exists w', rows l w = Raise IndexError w'.
Proof.
  intros V N l w Hshort. unfold rows, for_range. rewrite Z.sub_0_r, Nat2Z.id.
  set (m := Nat.min (length (ramp_measurements l)) (length (opamp_measurements l))).
  apply (for_range_from_raises (fun _ _ _ => True) _ IndexError m);
    [lia | | | exact I].
  - intros k data w' Hk _. rewrite Z.add_0_l, Nat2Z.id.
    destruct (lookup_lt_is_Some_2 (Times l) k) as [t ->]; [lia|].
    destruct (lookup_lt_is_Some_2 (ramp_measurements l) k) as [r ->]; [lia|].
    destruct (lookup_lt_is_Some_2 (opamp_measurements l) k) as [o ->]; [lia|].
    eexists _, _. split; [reflexivity | exact I].
  - intros data w' _. rewrite Z.add_0_l, Nat2Z.id. exists w'.
    destruct (Times l !! m) as [t|]; [|reflexivity].
    destruct (decide (length (ramp_measurements l) <= length (opamp_measurements l))%nat).
    + rewrite (lookup_ge_None_2 (ramp_measurements l) m) by lia. reflexivity.
    + rewrite (lookup_ge_None_2 (opamp_measurements l) m) by lia.
      destruct (ramp_measurements l !! m); reflexivity.
Qed.

Lemma rows_short_witness :
  exists w',
    rows {| ramp_measurements := [of_int 1]; opamp_measurements := [of_int 3; of_int 4];
            Times := [of_int 6; of_int 7]; power_up := of_int 0 |} (loaded B64.t)
    = Raise IndexError w'.
Proof.
  apply (rows_short B64.t binary64
           {| ramp_measurements := [of_int 1]; opamp_measurements := [of_int 3; of_int 4];
              Times := [of_int 6; of_int 7]; power_up := of_int 0 |} (loaded B64.t)).
  left. cbn. lia.
Defined.

(** ** Which samples a row holds, and what a sweep costs *)

Section Pairing.
Context {V : Type} `{PyNum V}.
Variable env : environment V.

Lemma paired_phase start_time f n s0 len l (w : world V) :
  paired env s0 len l -> samples_read w = (s0 + 2 * len)%nat ->
  paired env s0 (len + n) (phase_locals env start_time f n l w).
Proof.
  intros (Hr & Ho) Hs. unfold paired, phase_locals.
  cbn [ramp_measurements opamp_measurements].
  rewrite Hr, Ho, Hs, !seq_app, !map_app. cbn [Nat.add]. split; f_equal.
  - rewrite <- (map_shift_seq (fun i => voltage env (s0 + 2 * i)) len n).
    apply map_ext. intros k. f_equal. lia.
  - rewrite <- (map_shift_seq (fun i => voltage env (s0 + 2 * i + 1)) len n).
    apply map_ext. intros k. f_equal. lia.
Qed.

Lemma paired_cycle c start_time n s0 len l (w : world V) :
  paired env s0 len l -> samples_read w = (s0 + 2 * len)%nat ->
  paired env s0 (len + 2 * n) (cycle_locals env c start_time n l w).
Proof.
  intros Hl Hs. unfold cycle_locals.
  replace (len + 2 * n)%nat with (len + n + n)%nat by lia.
  apply paired_phase.
  - apply paired_phase; assumption.
  - rewrite samples_read_advance. lia.
Qed.

Lemma paired_sweep c start_time n k s0 len l (w : world V) :
  paired env s0 len l -> samples_read w = (s0 + 2 * len)%nat ->
  paired env s0 (len + k * (2 * n)) (sweep_locals env c start_time n k l w).
Proof.
  intros Hl Hs. induction k as [|k IH]; cbn [sweep_locals].
  - replace (len + 0 * (2 * n))%nat with len by lia. exact Hl.
  - replace (len + S k * (2 * n))%nat with (len + k * (2 * n) + 2 * n)%nat by lia.
    apply paired_cycle; [exact IH|]. rewrite samples_read_advance. lia.
Qed.

End Pairing.

(** X11.  Let [time] be imported and [time.sleep] accept the two delays.
    Whenever the step count computes, [main] runs its loops to the end with
    three lists of one length, and their entries number [i] are the samples
    number [2 i] and [2 i + 1] that the scope returned since [main] began
    (channel 1, then channel 2) and a reading of the clock minus the reading
    of line 301. *)
Theorem rows_hold_sample_pairs :
  forall V (N : PyNum V) (env : environment V) (c : settings V) steps (w : world V),
    imported w -> sleeps env c ->
    rmap_steps c = inr steps ->
    exists l w',
      main env c w = Ok l w'
      /\ length (ramp_measurements l) = length (Times l)
      /\ length (opamp_measurements l) = length (Times l)
      /\ forall i, (i < length (Times l))%nat ->
           ramp_measurements l !! i = Some (voltage env (samples_read w + 2 * i))
           /\ opamp_measurements l !! i = Some (voltage env (samples_read w + 2 * i + 1))
           /\ exists j, (clock_reads w < j < clock_reads w')%nat
                        /\ Times l !! i
                           = Some (sub (clock env j) (clock env (clock_reads w))).
Proof.
  intros V N env c steps w Hw Hsleeps Hsteps.
  destruct (main_eq env c steps w Hw Hsleeps Hsteps) as (evs & Hmain).
  set (n := Z.to_nat (steps * 2)) in *. set (k := Z.to_nat (cycles c)) in *.
  set (start_time := clock env (clock_reads w)) in *.
  set (l := sweep_locals env c start_time n k (initial_locals c) (advance [] 1 0 0 w)) in *.
  assert (Hrec : recorded (0 + k * (2 * n)) l).
  { apply recorded_sweep. repeat split. }
  assert (Hpair : paired env (samples_read w) (0 + k * (2 * n)) l).
  { apply paired_sweep; [split; reflexivity|].
    rewrite samples_read_advance. lia. }
  assert (Hst : stamped env start_time (clock_reads w)
                  (clock_reads w + 1 + k * (2 * n + 1)) (Times l)).
  { change (clock_reads w + 1)%nat with (clock_reads (advance [] 1 0 0 w)).
    apply stamped_sweep with (hi := 0%nat).
    - exists []. repeat split; [intros a b i j Ha; discriminate Ha | constructor].
    - lia.
    - rewrite clock_reads_advance. lia. }
  destruct Hrec as (Ht & Hr & Ho). destruct Hpair as (Hramp & Hopamp).
  exists l. eexists. split; [exact Hmain|].
  split; [lia|]. split; [lia|].
  intros i Hi. rewrite Hramp, Hopamp, !list_lookup_fmap.
  rewrite (proj2 (lookup_seq 0 (0 + k * (2 * n)) i i) ltac:(split; [reflexivity | lia])).
  split; [reflexivity|]. split; [reflexivity|].
  destruct Hst as (idxs & Hts & _ & Hall).
  destruct (lookup_lt_is_Some_2 (Times l) i Hi) as [t Hti].
  rewrite Hti. rewrite Hts, list_lookup_fmap in Hti.
  destruct (idxs !! i) as [j|] eqn:Hj; [|discriminate Hti].
  injection Hti as <-. exists j. split; [|reflexivity].
  rewrite Forall_lookup in Hall. specialize (Hall _ _ Hj). cbn beta in Hall.
  rewrite clock_reads_advance. lia.
Qed.

Lemma rows_hold_sample_pairs_witness :
  exists l w',
    main bench64 main_settings (import_time (loaded B64.t)) = Ok l w'
    /\ length (ramp_measurements l) = length (Times l)
    /\ length (opamp_measurements l) = length (Times l)
    /\ forall i, (i < length (Times l))%nat ->
         ramp_measurements l !! i
         = Some (voltage bench64 (samples_read (import_time (loaded B64.t)) + 2 * i))
         /\ opamp_measurements l !! i
            = Some (voltage bench64 (samples_read (import_time (loaded B64.t)) + 2 * i + 1))
         /\ exists j, (clock_reads (import_time (loaded B64.t)) < j < clock_reads w')%nat
                      /\ Times l !! i
                         = Some (sub (clock bench64 j)
                                   (clock bench64 (clock_reads (import_time (loaded B64.t))))).
Proof.
  apply (rows_hold_sample_pairs B64.t binary64 bench64 main_settings 100
           (import_time (loaded B64.t))).
  - vm_compute. reflexivity.
  - split; vm_compute; reflexivity.
  - vm_compute. reflexivity.
Defined.

(** X13.  Let [time] be imported and [time.sleep] accept half a second.
    When the step count or the number of cycles is zero or negative, the
    ranges are empty: [main] runs to the end of its loops without sampling
    the scope, and the lists are empty. *)
Theorem nothing_to_sweep :
  forall V (N : PyNum V) (env : environment V) (c : settings V) steps (w : world V),
    imported w -> sleep_raises env (of_Q (1 # 2)) = None ->
    rmap_steps c = inr steps ->
    steps <= 0 \/ cycles c <= 0 ->
    exists w',
      main env c w = Ok (initial_locals c) w'
      /\ samples_read w' = samples_read w
      /\ count_calls "FDwfAnalogInStatusSample" (trace w')
         = count_calls "FDwfAnalogInStatusSample" (trace w).
Proof.
  intros V N env c steps w Hw Hhalf Hsteps Hle.
  destruct (main_idle env c steps w Hw Hhalf Hsteps Hle) as (evs & Hmain & Hevs).
  eexists. split; [exact Hmain|]. split.
  - rewrite samples_read_advance. lia.
  - rewrite trace_advance, count_calls_app, Hevs. lia.
Qed.

Lemma nothing_to_sweep_witness :
  exists w',
    main bench64 backward_settings (import_time (loaded B64.t))
    = Ok (initial_locals backward_settings) w'
    /\ samples_read w' = samples_read (import_time (loaded B64.t))
    /\ count_calls "FDwfAnalogInStatusSample" (trace w')
       = count_calls "FDwfAnalogInStatusSample" (trace (import_time (loaded B64.t))).
Proof.
  apply (nothing_to_sweep B64.t binary64 bench64 backward_settings (-100)
           (import_time (loaded B64.t))).
  - vm_compute. reflexivity.
  - vm_compute. reflexivity.
  - vm_compute. reflexivity.
  - left. lia.
Defined.

(** ** The step count *)

(** X14.  In binary64, a step of zero (of either sign) makes [main] raise
    [ZeroDivisionError] at line 278, whatever the amplitude; a nan step, or a
    nan amplitude over a step that is not zero, makes it raise [ValueError];
    an infinite amplitude over a finite step that is not zero makes it raise
    [OverflowError].  Each time the device has not been opened: the world is
    as it was. *)
Theorem sweep_rejects_bad_step :
  forall (env : environment B64.t) (c : settings B64.t) (w : world B64.t),
    (forall s, amplitude_slope c = S754_zero s ->
               main env c w = Raise ZeroDivisionError w)
    /\ (amplitude_slope c = S754_nan ->
        main env c w = Raise ValueError w)
    /\ (amplitude c = S754_nan -> (forall s, amplitude_slope c <> S754_zero s) ->
        main env c w = Raise ValueError w)
    /\ (forall s s' m e,
          amplitude c = S754_infinity s -> amplitude_slope c = S754_finite s' m e ->
          main env c w = Raise OverflowError w).
Proof.
  intros env c w. repeat split.
  - intros s Hs. apply main_raises. unfold rmap_steps. cbn [truediv binary64].
    rewrite Hs. reflexivity.
  - intros Hs. apply main_raises. unfold rmap_steps. cbn [truediv binary64].
    rewrite Hs. destruct (amplitude c); reflexivity.
  - intros Ha Hs. apply main_raises. unfold rmap_steps. cbn [truediv binary64].
    rewrite Ha. destruct (amplitude_slope c) as [s|s| |s m e]; try reflexivity.
    destruct (Hs s). reflexivity.
  - intros s s' m e Ha Hs. apply main_raises. unfold rmap_steps.
    cbn [truediv binary64]. rewrite Ha, Hs. reflexivity.
Qed.

Lemma sweep_rejects_bad_step_witness :
  main bench64 still_settings (loaded B64.t) = Raise ZeroDivisionError (loaded B64.t).
Proof.
  apply (proj1 (sweep_rejects_bad_step bench64 still_settings (loaded B64.t)) false).
  vm_compute. reflexivity.
Defined.

(** ** What a sweep keeps *)

Section Invariant.
Context {V : Type} `{PyNum V}.
Variable Inv : nat -> V -> list (event V) -> Prop.
Variable env : environment V.
Variable c : settings V.
Variable d : device_data.
Variable start_time : V.

(** A property [Inv r p evs] of the number of iterations made, of the output
    and of the calls made so far, kept by every iteration that moves the
    output by [f], holds after a loop of such iterations. *)
Lemma phase_invariant f (body : Z -> locals V -> M V (locals V)) :
  (forall i l w, imported w ->
     body i l w = Ok (step_locals env start_time (f (power_up l)) l w)
                     (advance (step_events env c d (f (power_up l)) w) 1 2 0 w)) ->
  (forall r p evs w', Inv r p evs ->
     Inv (S r) (f p) (evs ++ step_events env c d (f p) w')) ->
  forall n start l w r evs0,
    imported w -> Inv r (power_up l) evs0 ->
    exists evs,
      for_range_from start n body l w
      = Ok (phase_locals env start_time f n l w) (advance evs n (2 * n) 0 w)
      /\ Inv (r + n) (power_up (phase_locals env start_time f n l w)) (evs0 ++ evs).
Proof.
  intros Hbody Hkeep n start l w r evs0 Hw HI.
  destruct (for_range_from_rule
              (fun k l' w' =>
                 l' = phase_locals env start_time f k l w
                 /\ exists evs, w' = advance evs k (2 * k) 0 w
                      /\ Inv (r + k) (power_up l') (evs0 ++ evs))
              body n start) with (s := l) (w := w)
    as (l' & w' & Hrun & -> & evs & -> & HIn).
  - intros k l' w' _ (-> & evs & -> & HIk).
    eexists _, _. split; [apply Hbody, imported_advance, Hw|]. split.
    + apply phase_locals_S.
    + eexists. split.
      * rewrite advance_advance. f_equal; lia.
      * cbn [power_up step_locals]. rewrite Nat.add_succ_r, app_assoc.
        apply Hkeep. exact HIk.
  - split; [symmetry; apply phase_locals_0|].
    exists []. split; [symmetry; apply advance_nil|].
    rewrite Nat.add_0_r, app_nil_r. exact HI.
  - exists evs. split; [exact Hrun | exact HIn].
Qed.

Hypothesis delay_accepted : sleep_raises env (time_per_measurement c) = None.
Hypothesis kept_rising :
  forall r p evs w', Inv r p evs ->
    Inv (S r) (add p (amplitude_slope c))
      (evs ++ step_events env c d (add p (amplitude_slope c)) w').
Hypothesis kept_falling :
  forall r p evs w', Inv r p evs ->
    Inv (S r) (sub p (amplitude_slope c))
      (evs ++ step_events env c d (sub p (amplitude_slope c)) w').
Hypothesis kept_printing :
  forall r p evs t j, Inv r p evs ->
    Inv r p (evs ++ [TimeTime t; PrintCycle j (sub t start_time)]).

Lemma cycle_invariant steps j l w r evs0 :
  imported w -> Inv r (power_up l) evs0 ->
  let n := Z.to_nat (steps * 2) in
  exists evs,
    cycle env c d start_time steps j l w
    = Ok (cycle_locals env c start_time n l w) (advance evs (2 * n + 1) (4 * n) 0 w)
    /\ Inv (r + 2 * n) (power_up (cycle_locals env c start_time n l w)) (evs0 ++ evs).
Proof.
  intros Hw HI n. unfold cycle, rising_phase, falling_phase, for_range.
  rewrite !Z.sub_0_r. fold n.
  destruct (phase_invariant (fun p => add p (amplitude_slope c))
              (fun i => rising_step env c d start_time)
              (fun i l' w' Hw' => rising_step_eq env c d start_time l' w' Hw' delay_accepted)
              kept_rising n 0 l w r evs0 Hw HI) as (evs1 & H1 & HI1).
  erewrite bind_ok by exact H1.
  match goal with |- context [bind (for_range_from 0 n _ ?l1) _ ?w1] =>
    destruct (phase_invariant (fun p => sub p (amplitude_slope c))
                (fun i => falling_step env c d start_time)
                (fun i l' w' Hw' =>
                   falling_step_eq env c d start_time l' w' Hw' delay_accepted)
                kept_falling n 0 l1 w1 (r + n)%nat (evs0 ++ evs1)
                (imported_advance _ _ _ _ _ Hw) HI1) as (evs2 & H2 & HI2)
  end.
  erewrite bind_ok by exact H2. tidy. do 2 run.
  eexists. split.
  - unfold ret. f_equal. f_equal; lia.
  - replace (r + 2 * n)%nat with (r + n + n)%nat by lia.
    rewrite !app_assoc. rewrite <- (app_assoc ((evs0 ++ evs1) ++ evs2)).
    cbn [app]. apply kept_printing. exact HI2.
Qed.

Lemma sweep_invariant steps l w r evs0 :
  imported w -> Inv r (power_up l) evs0 ->
  let n := Z.to_nat (steps * 2) in
  let k := Z.to_nat (cycles c) in
  exists evs,
    sweep env c d start_time steps l w
    = Ok (sweep_locals env c start_time n k l w)
         (advance evs (k * (2 * n + 1)) (k * (4 * n)) 0 w)
    /\ Inv (r + k * (2 * n)) (power_up (sweep_locals env c start_time n k l w))
         (evs0 ++ evs).
Proof.
  intros Hw HI n k. unfold sweep.
  destruct (for_range_rule
              (fun i l' w' =>
                 l' = sweep_locals env c start_time n i l w
                 /\ exists evs, w' = advance evs (i * (2 * n + 1)) (i * (4 * n)) 0 w
                      /\ Inv (r + i * (2 * n)) (power_up l') (evs0 ++ evs))
              (cycle env c d start_time steps) 0 (cycles c))
    with (s := l) (w := w) as (l' & w' & Hrun & -> & evs & -> & HIk).
  - intros i l' w' _ (-> & evs & -> & HIi).
    destruct (cycle_invariant steps (0 + Z.of_nat i)
                (sweep_locals env c start_time n i l w)
                (advance evs (i * (2 * n + 1)) (i * (4 * n)) 0 w)
                (r + i * (2 * n))%nat (evs0 ++ evs)
                (imported_advance _ _ _ _ _ Hw) HIi) as (evs' & Hc & HI').
    eexists _, _. split; [exact Hc|]. split; [reflexivity|].
    eexists. split.
    + rewrite advance_advance. f_equal; fold n; lia.
    + fold n in HI'. rewrite app_assoc.
      replace (r + S i * (2 * n))%nat with (r + i * (2 * n) + 2 * n)%nat by lia.
      exact HI'.
  - split; [reflexivity|]. exists []. split; [symmetry; apply advance_nil|].
    rewrite Nat.add_0_r, app_nil_r. exact HI.
  - rewrite Z.sub_0_r in Hrun, HIk. exists evs. split; [exact Hrun | exact HIk].
Qed.

End Invariant.

(** The same for [main]: a property that holds of the calls up to the
    reading of the clock at line 301, with no iteration made and the output
    at its initial value, and that every iteration and every print keeps,
    holds when the loops end. *)
Lemma main_invariant `{PyNum V} (Inv : nat -> V -> list (event V) -> Prop)
    (env : environment V) (c : settings V) steps (w : world V) :
  let d := {| handle := opened env |} in
  let start_time := clock env (clock_reads w) in
  imported w -> sleeps env c ->
  rmap_steps c = inr steps ->
  Inv 0%nat (initial_power_up c) (setup_events env c ++ [TimeTime start_time]) ->
  (forall r p evs w', Inv r p evs ->
     Inv (S r) (add p (amplitude_slope c))
       (evs ++ step_events env c d (add p (amplitude_slope c)) w')) ->
  (forall r p evs w', Inv r p evs ->
     Inv (S r) (sub p (amplitude_slope c))
       (evs ++ step_events env c d (sub p (amplitude_slope c)) w')) ->
  (forall r p evs t j, Inv r p evs ->
     Inv r p (evs ++ [TimeTime t; PrintCycle j (sub t start_time)])) ->
  exists l w' evs,
    main env c w = Ok l w'
    /\ trace w' = trace w ++ evs
    /\ globals w' = globals w
    /\ clock_reads w' = (clock_reads w + readings c steps)%nat
    /\ samples_read w' = (samples_read w + 2 * length (Times l))%nat
    /\ length (ramp_measurements l) = length (Times l)
    /\ length (opamp_measurements l) = length (Times l)
    /\ Inv (length (Times l)) (power_up l) evs.
Proof.
  intros d start_time Hw (Hhalf & Hnap) Hsteps Hinit Hup Hdown Hprint. unfold main.
  erewrite bind_ok by (rewrite Hsteps; reflexivity).
  erewrite bind_ok by (apply setup_eq; assumption). run.
  match goal with |- context [sweep _ _ _ _ _ ?l0 ?w1] =>
    destruct (sweep_invariant Inv env c d start_time Hnap Hup Hdown Hprint steps l0 w1
                0%nat (setup_events env c ++ [TimeTime start_time])
                (imported_advance _ _ _ _ _ Hw) Hinit) as (evs & Hs & HI);
    destruct (recorded_sweep env c start_time (Z.to_nat (steps * 2))
                (Z.to_nat (cycles c)) 0 l0 w1) as (Ht & Hr & Ho); [repeat split|]
  end.
  unfold d, start_time in *. rewrite Hs. tidy.
  eexists _, _, _. split; [reflexivity|].
  rewrite Ht, Hr, Ho. unfold readings.
  repeat split; try reflexivity; try lia.
  - rewrite samples_read_advance. lia.
  - exact HI.
Qed.

(** X12.  Let [time] be imported and [time.sleep] accept the two delays.
    Whenever the step count computes, a sweep has called
    [FDwfAnalogInConfigure], [FDwfAnalogInStatus] and
    [FDwfAnalogInStatusSample] twice each for every entry of [Times] it
    records, and started the generator once for every entry and once at
    line 297; it has read the clock once for every entry, once more at line
    301 and once after every cycle; and it leaves the globals as they
    were. *)
Theorem sweep_cost :
  forall V (N : PyNum V) (env : environment V) (c : settings V) steps (w : world V),
    imported w -> sleeps env c ->
    rmap_steps c = inr steps ->
    exists l w' evs,
      main env c w = Ok l w'
      /\ trace w' = trace w ++ evs
      /\ count_calls "FDwfAnalogInConfigure" evs = (2 * length (Times l))%nat
      /\ count_calls "FDwfAnalogInStatus" evs = (2 * length (Times l))%nat
      /\ count_calls "FDwfAnalogInStatusSample" evs = (2 * length (Times l))%nat
      /\ count_calls "FDwfAnalogOutConfigure" evs = S (length (Times l))
      /\ samples_read w' = (samples_read w + 2 * length (Times l))%nat
      /\ clock_reads w'
         = (clock_reads w + 1 + Z.to_nat (cycles c) + length (Times l))%nat
      /\ globals w' = globals w.
Proof.
  intros V N env c steps w Hw Hsleeps Hsteps.
  destruct (main_invariant
              (fun r _ evs =>
                 count_calls "FDwfAnalogInConfigure" evs = (2 * r)%nat
                 /\ count_calls "FDwfAnalogInStatus" evs = (2 * r)%nat
                 /\ count_calls "FDwfAnalogInStatusSample" evs = (2 * r)%nat
                 /\ count_calls "FDwfAnalogOutConfigure" evs = S r)
              env c steps w Hw Hsleeps Hsteps)
    as (l & w' & evs & Hmain & Htrace & Hglobals & Hclock & Hsamples & Hr & Ho
        & H1 & H2 & H3 & H4).
  - repeat split.
  - intros r p evs w1 (H1 & H2 & H3 & H4).
    rewrite !count_calls_app, H1, H2, H3, H4. cbn. repeat split; lia.
  - intros r p evs w1 (H1 & H2 & H3 & H4).
    rewrite !count_calls_app, H1, H2, H3, H4. cbn. repeat split; lia.
  - intros r p evs t j (H1 & H2 & H3 & H4).
    rewrite !count_calls_app, H1, H2, H3, H4. cbn. repeat split; lia.
  - exists l, w', evs. repeat split; try assumption.
    rewrite Hclock. unfold readings.
    assert (Hlen : length (Times l)
                   = (Z.to_nat (cycles c) * (2 * Z.to_nat (steps * 2)))%nat).
    { destruct (main_eq env c steps w Hw Hsleeps Hsteps) as (evs' & Hmain').
      rewrite Hmain in Hmain'. injection Hmain' as -> _.
      destruct (recorded_sweep env c (clock env (clock_reads w)) (Z.to_nat (steps * 2))
                  (Z.to_nat (cycles c)) 0 (initial_locals c) (advance [] 1 0 0 w))
        as (Ht & _); [repeat split|]. exact Ht. }
    rewrite Hlen. lia.
Qed.

Lemma sweep_cost_witness :
  exists l w' evs,
    main bench64 main_settings (import_time (loaded B64.t)) = Ok l w'
    /\ trace w' = trace (import_time (loaded B64.t)) ++ evs
    /\ count_calls "FDwfAnalogInConfigure" evs = (2 * length (Times l))%nat
    /\ count_calls "FDwfAnalogInStatus" evs = (2 * length (Times l))%nat
    /\ count_calls "FDwfAnalogInStatusSample" evs = (2 * length (Times l))%nat
    /\ count_calls "FDwfAnalogOutConfigure" evs = S (length (Times l))
    /\ samples_read w'
       = (samples_read (import_time (loaded B64.t)) + 2 * length (Times l))%nat
    /\ clock_reads w'
       = (clock_reads (import_time (loaded B64.t)) + 1
          + Z.to_nat (cycles (main_settings (V := B64.t))) + length (Times l))%nat
    /\ globals w' = globals (import_time (loaded B64.t)).
Proof.
  apply (sweep_cost B64.t binary64 bench64 main_settings 100 (import_time (loaded B64.t))).
  - vm_compute. reflexivity.
  - split; vm_compute; reflexivity.
  - vm_compute. reflexivity.
Defined.

(** ** The offsets the generator is given *)

Lemma offsets_app `{PyNum V} (tr1 tr2 : list (event V)) :
  offsets (tr1 ++ tr2) = offsets tr1 ++ offsets tr2.
Proof. apply omap_app. Qed.

(** X16.  Let [time] be imported and [time.sleep] accept the two delays.
    Whenever the step count computes, [main] runs its loops to the end
    having given the generator one offset at line 297 and one for every
    entry of [Times], and the last offset it gave is the final value of
    [power_up]: the output of the generator is where the variable says. *)
Theorem generator_follows_output :
  forall V (N : PyNum V) (env : environment V) (c : settings V) steps (w : world V),
    imported w -> sleeps env c ->
    rmap_steps c = inr steps ->
    exists l w' offs,
      main env c w = Ok l w'
      /\ offsets (trace w') = offsets (trace w) ++ offs
      /\ last offs = Some (power_up l)
      /\ length offs = S (length (Times l)).
Proof.
  intros V N env c steps w Hw Hsleeps Hsteps.
  destruct (main_invariant
              (fun r p evs => last (offsets evs) = Some p
                              /\ length (offsets evs) = S r)
              env c steps w Hw Hsleeps Hsteps)
    as (l & w' & evs & Hmain & Htrace & _ & _ & _ & _ & _ & Hlast & Hlen).
  - split; reflexivity.
  - intros r p evs w1 (Hlast & Hlen). rewrite offsets_app.
    change (offsets (step_events env c {| handle := opened env |}
                       (add p (amplitude_slope c)) w1))
      with [add p (amplitude_slope c)].
    rewrite last_snoc, length_app, Hlen. cbn [length]. split; [reflexivity | lia].
  - intros r p evs w1 (Hlast & Hlen). rewrite offsets_app.
    change (offsets (step_events env c {| handle := opened env |}
                       (sub p (amplitude_slope c)) w1))
      with [sub p (amplitude_slope c)].
    rewrite last_snoc, length_app, Hlen. cbn [length]. split; [reflexivity | lia].
  - intros r p evs t j (Hlast & Hlen). rewrite offsets_app.
    cbn [offsets omap offset_of]. rewrite app_nil_r. split; assumption.
  - exists l, w', (offsets evs). split; [exact Hmain|].
    rewrite Htrace, offsets_app. repeat split; assumption.
Qed.

Lemma generator_follows_output_witness :
  exists l w' offs,
    main bench64 main_settings (import_time (loaded B64.t)) = Ok l w'
    /\ offsets (trace w') = offsets (trace (import_time (loaded B64.t))) ++ offs
    /\ last offs = Some (power_up l)
    /\ length offs = S (length (Times l)).
Proof.
  apply (generator_follows_output B64.t binary64 bench64 main_settings 100
           (import_time (loaded B64.t))).
  - vm_compute. reflexivity.
  - split; vm_compute; reflexivity.
  - vm_compute. reflexivity.
Defined.

(** ** The name [time] *)

Lemma module_globals_time V : module_globals V !! "time" = None.
Proof. vm_compute. reflexivity. Qed.

(** X18.  The top level of the file binds no name [time].  In any world
    where [time] is unbound, once the step count has computed, [main] calls
    [device.open()] and then raises [NameError] at line 286: nothing else
    is called and the world is otherwise as it was.  Where [time] is bound
    to a string it raises [AttributeError] at the same place. *)
Theorem main_needs_time :
  forall V (N : PyNum V) (env : environment V) (c : settings V) steps (w : world V),
    rmap_steps c = inr steps ->
    module_globals V !! "time" = None
    /\ (globals w !! "time" = None ->
        main env c w
        = Raise (NameError "time") (advance [DeviceOpen (opened env)] 0 0 0 w))
    /\ (globals w !! "time" = Some PyStr ->
        main env c w
        = Raise (AttributeError "sleep") (advance [DeviceOpen (opened env)] 0 0 0 w)).
Proof.
  intros V N env c steps w Hsteps. split; [apply module_globals_time|].
  split; intros Htime; unfold main, setup.
  - erewrite bind_ok by (rewrite Hsteps; reflexivity).
    apply bind_raise. run_with @device_open_eq.
    apply bind_raise. unfold time_sleep.
    apply bind_raise, load_global_unbound. exact Htime.
  - erewrite bind_ok by (rewrite Hsteps; reflexivity).
    apply bind_raise. run_with @device_open_eq.
    apply bind_raise. unfold time_sleep.
    erewrite bind_ok by (apply load_global_bound; exact Htime).
    reflexivity.
Qed.

(** [main] in the namespace of the file as it is. *)
Lemma main_needs_time_witness :
  main bench64 main_settings (loaded B64.t)
  = Raise (NameError "time") (advance [DeviceOpen (opened bench64)] 0 0 0 (loaded B64.t)).
Proof.
  apply (main_needs_time B64.t binary64 bench64 main_settings 100 (loaded B64.t)).
  - vm_compute. reflexivity.
  - vm_compute. reflexivity.
Defined.

(** ** A delay that [time.sleep] refuses *)

Section Refused.
Context {V : Type} `{PyNum V}.

Lemma rising_step_refused (env : environment V) c d start_time l w e :
  imported w -> sleep_raises env (time_per_measurement c) = Some e ->
  rising_step env c d start_time l w
  = Raise e
      (advance
         (measure_events d 1 (voltage env (samples_read w))
          ++ measure_events d 2 (voltage env (samples_read w + 1))
          ++ output_events d (add (power_up l) (amplitude_slope c))
          ++ [TimeTime (clock env (clock_reads w))]) 1 2 0 w).
Proof.
  intros Hw Hnap. unfold rising_step.
  do 2 run_with @measure_eq. run_with @set_output_eq. run.
  apply bind_raise. unfold time_sleep.
  erewrite bind_ok by (apply load_global_bound, imported_advance, Hw).
  erewrite bind_ok by reflexivity.
  unfold call_sleep. rewrite Hnap. reflexivity.
Qed.

End Refused.

(** X19.  Let [time] be imported and [time.sleep] accept half a second but
    answer [time_per_measurement] with an exception (as it does a negative
    delay).  When there is a step and a cycle to make, [main] raises that
    exception at line 329, in its first iteration: the scope has been
    sampled twice, the generator moved once and the clock read twice, and
    nothing was slept for but the three half seconds. *)
Theorem sweep_refused_delay :
  forall V (N : PyNum V) (env : environment V) (c : settings V) steps (w : world V) e,
    imported w -> sleep_raises env (of_Q (1 # 2)) = None ->
    sleep_raises env (time_per_measurement c) = Some e ->
    rmap_steps c = inr steps -> 0 < steps -> 0 < cycles c ->
    let d := {| handle := opened env |} in
    main env c w
    = Raise e
        (advance
           (setup_events env c
            ++ [TimeTime (clock env (clock_reads w))]
            ++ measure_events d 1 (voltage env (samples_read w))
            ++ measure_events d 2 (voltage env (samples_read w + 1))
            ++ output_events d (add (initial_power_up c) (amplitude_slope c))
            ++ [TimeTime (clock env (clock_reads w + 1))]) 2 2 0 w).
Proof.
  intros V N env c steps w e Hw Hhalf Hnap Hsteps Hs Hc d. unfold main.
  erewrite bind_ok by (rewrite Hsteps; reflexivity).
  erewrite bind_ok by (apply setup_eq; assumption). run.
  unfold sweep, for_range.
  destruct (Z.to_nat (cycles c - 0)) as [|k] eqn:Hk; [lia|].
  cbn [for_range_from]. apply bind_raise.
  unfold cycle. apply bind_raise. unfold rising_phase, for_range.
  destruct (Z.to_nat (steps * 2 - 0)) as [|n] eqn:Hn; [lia|].
  cbn [for_range_from]. apply bind_raise.
  rewrite (rising_step_refused env c _ _ _ _ e) by solve_imported || assumption.
  tidy. unfold measure_events, output_events.
  rewrite <- !app_assoc. reflexivity.
Qed.

Lemma sweep_refused_delay_witness :
  let d := {| handle := opened bench64 |} in
  let w := import_time (loaded B64.t) in
  main bench64 hasty_settings w
  = Raise ValueError
      (advance
         (setup_events bench64 hasty_settings
          ++ [TimeTime (clock bench64 (clock_reads w))]
          ++ measure_events d 1 (voltage bench64 (samples_read w))
          ++ measure_events d 2 (voltage bench64 (samples_read w + 1))
          ++ output_events d (add (initial_power_up hasty_settings)
                                (amplitude_slope hasty_settings))
          ++ [TimeTime (clock bench64 (clock_reads w + 1))]) 2 2 0 w).
Proof.
  apply (sweep_refused_delay B64.t binary64 bench64 hasty_settings 100
           (import_time (loaded B64.t)) ValueError).
  - vm_compute. reflexivity.
  - vm_compute. reflexivity.
  - vm_compute. reflexivity.
  - vm_compute. reflexivity.
  - lia.
  - cbn [cycles hasty_settings]. lia.
Defined.
